(** * The image-marker viewport and shape-manipulation engine

  A shallow embedding of the interactive engine of the image-marker demo:
  the [ImageViewer] component (viewport transform, gesture handlers,
  selection synchronisation, resize bound) and the [ImageMarkerPage]
  component that owns the markers, the canonical selection and the marker
  focus, and that receives the viewer's notifications.

  Modelling conventions.
  - A JavaScript [number] is an exact rational ([Q]); arithmetic is the
    arithmetic of the source without IEEE-754 rounding, NaN or infinities.
    Equality of numbers is [==] ([Qeq]); the literals [1.1], [0.1] and [5]
    are the decimal fractions they denote. Rounding plays no part where a
    statement compares values, copies them from one place to another, says
    which calls are made and in which order, or computes with the small
    integers of the concrete runs. A product, a quotient or an identity of
    composed arithmetic (a zoom step, the round trip between stage and
    image space, the centring of a loaded image) is stated for the exact
    values, which the doubles of the program follow up to rounding.
  - A React event handler reads the state captured by its render and queues
    state updates; it is a function from the props, the captured state and
    the event to the next state together with the trace of outward calls
    it makes, in order ([onSelectionChange], [onMarkerSelect],
    [onMarkerMove], and [stopDrag] on the dragged shape).
  - Purely visual side effects on Konva shapes (stroke width, opacity, dash
    pattern, [batchDraw], [cancelBubble], [preventDefault]) carry no state
    of the engine and are left out; the document cursor is kept. *)

From Stdlib Require Import QArith Qminmax Qabs Lqa.
From Stdlib Require Import ZArith List FinFun String Ascii Bool Lia.
From Stdlib Require Import DecimalString DecimalZ.
Import ListNotations.

Open Scope Q_scope.

(** ** Numbers *)

Definition number : Type := Q.

(** [a < b] on numbers, as a test. *)
Definition ltb (a b : number) : bool := negb (Qle_bool b a).

(** [a !== b] on numbers. *)
Definition neqb (a b : number) : bool := negb (Qeq_bool a b).

Module Math.
Definition min (a b : number) : number := Qmin a b.
Definition max (a b : number) : number := Qmax a b.
Definition abs (a : number) : number := Qabs a.
End Math.

(** ** Data model *)

(** [{ x, y }] : the viewport origin, a pointer position, a press point. *)
Module Point.
Record t : Type := mk { x : number; y : number }.
End Point.

(** [{ width, height }]. *)
Module Size.
Record t : Type := mk { width : number; height : number }.
End Size.

(** The transient selection: a rectangle in image space and its visibility. *)
Module Selection.
Record t : Type := mk {
  x : number;
  y : number;
  width : number;
  height : number;
  visible : bool
}.

(** Field-wise equality, numbers compared as numbers. *)
Definition eq (a b : t) : Prop :=
  x a == x b /\ y a == y b /\ width a == width b /\
  height a == height b /\ visible a = visible b.

(** [{ ...prev, visible: v }]. *)
Definition withVisible (v : bool) (s : t) : t :=
  mk (x s) (y s) (width s) (height s) v.
End Selection.

(** The argument of [onSelectionChange]: a selection with the optional
  [isNewSelection] flag ([None] when the field is absent). *)
Module SelectionChange.
Record t : Type := mk {
  x : number;
  y : number;
  width : number;
  height : number;
  visible : bool;
  isNewSelection : option bool
}.

(** [{ ...selection }] and [{ ...selection, isNewSelection: true }]. *)
Definition of_selection (s : Selection.t) (flag : option bool) : t :=
  mk (Selection.x s) (Selection.y s) (Selection.width s)
     (Selection.height s) (Selection.visible s) flag.

(** The selection fields of the payload. *)
Definition selection (c : t) : Selection.t :=
  Selection.mk (x c) (y c) (width c) (height c) (visible c).

(** Truthiness of the optional flag. *)
Definition isNew (c : t) : bool :=
  match isNewSelection c with Some b => b | None => false end.
End SelectionChange.

(** [interface Marker]. *)
Module Marker.
Record t : Type := mk {
  id : string;
  name : string;
  x : number;
  y : number;
  width : number;
  height : number;
  ocrText : option string
}.
End Marker.

(** [Omit<Marker, "id">]. *)
Module NewMarker.
Record t : Type := mk {
  name : string;
  x : number;
  y : number;
  width : number;
  height : number;
  ocrText : option string
}.
End NewMarker.

(** [Partial<Marker>]: every field optional. *)
Module PartialMarker.
Record t : Type := mk {
  id : option string;
  name : option string;
  x : option number;
  y : option number;
  width : option number;
  height : option number;
  ocrText : option (option string)
}.

Definition or_else {A : Type} (o : option A) (d : A) : A :=
  match o with Some v => v | None => d end.

(** [{ ...marker, ...markerData }]. *)
Definition merge (m : Marker.t) (d : t) : Marker.t :=
  Marker.mk (or_else (id d) (Marker.id m))
            (or_else (name d) (Marker.name m))
            (or_else (x d) (Marker.x m))
            (or_else (y d) (Marker.y m))
            (or_else (width d) (Marker.width m))
            (or_else (height d) (Marker.height m))
            (or_else (ocrText d) (Marker.ocrText m)).
End PartialMarker.

(** ** The Konva side: shapes, boxes and events *)

Module Konva.

(** The geometry of a [Konva.Rect] node, in stage (screen) space. *)
Module Rect.
Record t : Type := mk {
  x : number;
  y : number;
  width : number;
  height : number;
  scaleX : number;
  scaleY : number
}.

(** The node after the drag mechanism moved it by [(dx, dy)]. *)
Definition movedBy (dx dy : number) (r : t) : t :=
  mk (x r + dx) (y r + dy) (width r) (height r) (scaleX r) (scaleY r).
End Rect.

(** The box handed to the transformer's [boundBoxFunc]. *)
Module Box.
Record t : Type := mk {
  x : number;
  y : number;
  width : number;
  height : number;
  rotation : number
}.
End Box.

(** [e.target.getStage()], reduced to what the handlers ask of it. *)
Module Stage.
Record t : Type := mk { getRelativePointerPosition : option Point.t }.
End Stage.

(** A mouse event on the stage. *)
Module MouseEvent.
Record t : Type := mk {
  className : string;          (* e.target.className *)
  getStage : option Stage.t;   (* e.target.getStage() *)
  button : Z;                  (* e.evt.button *)
  altKey : bool;               (* e.evt.altKey *)
  movementX : number;          (* e.evt.movementX *)
  movementY : number           (* e.evt.movementY *)
}.
End MouseEvent.

Module WheelEvent.
Record t : Type := mk { ctrlKey : bool; deltaY : number }.
End WheelEvent.

(** A drag or transform event on a shape. *)
Module DragEvent.
Record t : Type := mk { ctrlKey : bool; target : Rect.t }.
End DragEvent.

Module KeyboardEvent.
Record t : Type := mk { key : string; code : string }.
End KeyboardEvent.

End Konva.

(** [document.body.style.cursor]. *)
Inductive Cursor : Type := CursorDefault | CursorGrab | CursorGrabbing.

(** The outward calls a handler can make. *)
Inductive Call : Type :=
| OnSelectionChange (selection : SelectionChange.t)
| OnMarkerSelect (id : option string)
| OnMarkerMove (id : string) (x y width height : number)
| StopDrag.

Definition isOnSelectionChange (c : Call) : bool :=
  match c with OnSelectionChange _ => true | _ => false end.

Definition isOnMarkerMove (c : Call) : bool :=
  match c with OnMarkerMove _ _ _ _ _ => true | _ => false end.

Definition isStopDrag (c : Call) : bool :=
  match c with StopDrag => true | _ => false end.

(** ** The [ImageViewer] component *)

Module ImageViewer.

Import Konva.

(** [ImageViewerProps]. A callback prop is a flag: whether the parent passed
  it. What the parent does with a call is the parent's code (see
  [ImageMarkerPage]). *)
Record Props : Type := mkProps {
  selection : option Selection.t;
  onSelectionChange : bool;
  markers : list Marker.t;
  selectedMarkerId : option string;
  onMarkerSelect : bool;
  onMarkerMove : bool
}.

(** The component's [useState] cells, and the document cursor it drives.
  [image] is the loaded bitmap, known by its intrinsic size. *)
Record State : Type := mkState {
  image : option Size.t;
  imageSize : Size.t;
  scale : number;
  position : Point.t;
  imageSelection : Selection.t;
  isDrawing : bool;
  startPoint : Point.t;
  isDragging : bool;
  spacePressed : bool;
  cursor : Cursor
}.

(** The initial values of the [useState] cells. *)
Definition initialState : State :=
  mkState None (Size.mk 0 0) 1 (Point.mk 0 0)
          (Selection.mk 0 0 0 0 false) false (Point.mk 0 0) false false
          CursorDefault.

Definition setImage (v : option Size.t) (s : State) : State :=
  mkState v (imageSize s) (scale s) (position s) (imageSelection s)
          (isDrawing s) (startPoint s) (isDragging s) (spacePressed s)
          (cursor s).

Definition setImageSize (v : Size.t) (s : State) : State :=
  mkState (image s) v (scale s) (position s) (imageSelection s)
          (isDrawing s) (startPoint s) (isDragging s) (spacePressed s)
          (cursor s).

Definition setScale (v : number) (s : State) : State :=
  mkState (image s) (imageSize s) v (position s) (imageSelection s)
          (isDrawing s) (startPoint s) (isDragging s) (spacePressed s)
          (cursor s).

Definition setPosition (v : Point.t) (s : State) : State :=
  mkState (image s) (imageSize s) (scale s) v (imageSelection s)
          (isDrawing s) (startPoint s) (isDragging s) (spacePressed s)
          (cursor s).

Definition setImageSelection (v : Selection.t) (s : State) : State :=
  mkState (image s) (imageSize s) (scale s) (position s) v
          (isDrawing s) (startPoint s) (isDragging s) (spacePressed s)
          (cursor s).

Definition setIsDrawing (v : bool) (s : State) : State :=
  mkState (image s) (imageSize s) (scale s) (position s) (imageSelection s)
          v (startPoint s) (isDragging s) (spacePressed s) (cursor s).

Definition setStartPoint (v : Point.t) (s : State) : State :=
  mkState (image s) (imageSize s) (scale s) (position s) (imageSelection s)
          (isDrawing s) v (isDragging s) (spacePressed s) (cursor s).

Definition setIsDragging (v : bool) (s : State) : State :=
  mkState (image s) (imageSize s) (scale s) (position s) (imageSelection s)
          (isDrawing s) (startPoint s) v (spacePressed s) (cursor s).

Definition setSpacePressed (v : bool) (s : State) : State :=
  mkState (image s) (imageSize s) (scale s) (position s) (imageSelection s)
          (isDrawing s) (startPoint s) (isDragging s) v (cursor s).

Definition setCursor (v : Cursor) (s : State) : State :=
  mkState (image s) (imageSize s) (scale s) (position s) (imageSelection s)
          (isDrawing s) (startPoint s) (isDragging s) (spacePressed s) v.

(** [image] is non-null. [stageRef.current] and [transformerRef.current]
  are non-null in the same states: the [Stage], and the [Transformer]
  inside it, are rendered (and their refs set) exactly when [image] is
  non-null. *)
Definition hasImage (s : State) : bool :=
  match image s with Some _ => true | None => false end.

Definition stageRef (s : State) : bool := hasImage s.

Definition transformerRef (s : State) : bool := hasImage s.

(** [if (onSelectionChange) onSelectionChange(c)]. *)
Definition notifySelectionChange (props : Props) (c : SelectionChange.t)
  : list Call :=
  if onSelectionChange props then [OnSelectionChange c] else [].

(** The [useEffect] on [selectionProp] that synchronises the internal
  [imageSelection] with the prop. It makes no outward call. *)
Definition syncSelectionProp (props : Props) (st : State)
  : State * list Call :=
  match selection props with
  | Some selectionProp =>
      if neqb (Selection.x selectionProp) (Selection.x (imageSelection st))
         || neqb (Selection.y selectionProp) (Selection.y (imageSelection st))
         || neqb (Selection.width selectionProp)
                 (Selection.width (imageSelection st))
         || neqb (Selection.height selectionProp)
                 (Selection.height (imageSelection st))
         || negb (Bool.eqb (Selection.visible selectionProp)
                           (Selection.visible (imageSelection st)))
      then
        (setImageSelection
           (Selection.mk (Selection.x selectionProp)
                         (Selection.y selectionProp)
                         (Selection.width selectionProp)
                         (Selection.height selectionProp)
                         (Selection.visible selectionProp)) st, [])
      else (st, [])
  | None =>
      if Selection.visible (imageSelection st)
      then (setImageSelection
              (Selection.withVisible false (imageSelection st)) st, [])
      else (st, [])
  end.

(** [img.onload] inside [handleImageUpload]: [container] is the client size
  of [containerRef.current] when the container is mounted. *)
Definition handleImageUpload (img : Size.t) (container : option Size.t)
  (st : State) : State * list Call :=
  let st1 := setImageSize (Size.mk (Size.width img) (Size.height img))
               (setImage (Some img) st) in
  let st2 :=
    match container with
    | Some c =>
        setPosition
          (Point.mk ((Size.width c - Size.width img) / 2)
                    ((Size.height c - Size.height img) / 2)) st1
    | None => st1
    end in
  (setScale 1 st2, []).

(** Convert stage point to image coordinates. *)
Definition stageToImageCoords (st : State) (stageX stageY : number)
  : Point.t :=
  Point.mk ((stageX - Point.x (position st)) / scale st)
           ((stageY - Point.y (position st)) / scale st).

(** Handle mouse down on stage. *)
Definition handleMouseDown (props : Props) (st : State) (e : MouseEvent.t)
  : State * list Call :=
  if negb (hasImage st) then (st, []) else
  if (MouseEvent.className e =? "Rect")%string then (st, []) else
  match MouseEvent.getStage e with
  | None => (st, [])
  | Some stage =>
  if spacePressed st && (MouseEvent.button e =? 0)%Z
  then (setCursor CursorGrabbing (setIsDragging true st), [])
  else
  if negb (MouseEvent.altKey e) || negb (MouseEvent.button e =? 0)%Z
  then (st, [])
  else
  match Stage.getRelativePointerPosition stage with
  | None => (st, [])
  | Some pointerPos =>
      let imageCoords :=
        stageToImageCoords st (Point.x pointerPos) (Point.y pointerPos) in
      let newSelection :=
        Selection.mk (Point.x imageCoords) (Point.y imageCoords) 0 0 true in
      (setImageSelection newSelection
         (setStartPoint imageCoords (setIsDrawing true st)),
       notifySelectionChange props
         (SelectionChange.of_selection newSelection (Some true)))
  end
  end.

(** Handle mouse move on stage. *)
Definition handleMouseMove (props : Props) (st : State) (e : MouseEvent.t)
  : State * list Call :=
  match MouseEvent.getStage e with
  | None => (st, [])
  | Some stage =>
  if (MouseEvent.className e =? "Rect")%string then (st, []) else
  if isDragging st && hasImage st
  then
    (setPosition
       (Point.mk (Point.x (position st) + MouseEvent.movementX e)
                 (Point.y (position st) + MouseEvent.movementY e)) st, [])
  else
  if negb (isDrawing st) || negb (hasImage st) || negb (MouseEvent.altKey e)
  then (st, [])
  else
  match Stage.getRelativePointerPosition stage with
  | None => (st, [])
  | Some pointerPos =>
      let imageCoords :=
        stageToImageCoords st (Point.x pointerPos) (Point.y pointerPos) in
      let newSelection :=
        Selection.mk
          (Math.min (Point.x (startPoint st)) (Point.x imageCoords))
          (Math.min (Point.y (startPoint st)) (Point.y imageCoords))
          (Math.abs (Point.x imageCoords - Point.x (startPoint st)))
          (Math.abs (Point.y imageCoords - Point.y (startPoint st)))
          true in
      (setImageSelection newSelection st,
       notifySelectionChange props
         (SelectionChange.of_selection newSelection (Some true)))
  end
  end.

(** Handle mouse up on stage. *)
Definition handleMouseUp (props : Props) (st : State) (e : MouseEvent.t)
  : State * list Call :=
  if (MouseEvent.className e =? "Rect")%string then (st, []) else
  if isDragging st
  then (setCursor CursorDefault (setIsDragging false st), [])
  else
  if negb (isDrawing st) || negb (hasImage st) then (st, [])
  else (setIsDrawing false st, []).

(** Handle wheel event for zooming. *)
Definition handleWheel (props : Props) (st : State) (e : WheelEvent.t)
  : State * list Call :=
  if negb (WheelEvent.ctrlKey e) then (st, []) else
  if negb (stageRef st) || negb (hasImage st) then (st, []) else
  let oldScale := scale st in
  let newScale :=
    if ltb (WheelEvent.deltaY e) 0 then oldScale * 1.1 else oldScale / 1.1 in
  let boundedScale := Math.max 0.1 (Math.min 5 newScale) in
  (setScale boundedScale st, []).

(** Handle click on a marker. *)
Definition handleMarkerClick (props : Props) (st : State) (id : string)
  : State * list Call :=
  let newSelection := Selection.mk 0 0 0 0 false in
  (setImageSelection newSelection st,
   notifySelectionChange props
     (SelectionChange.of_selection newSelection None)
   ++ (if onMarkerSelect props
       then
         if match selectedMarkerId props with
            | Some sel => (sel =? id)%string
            | None => false
            end
         then [OnMarkerSelect None]
         else [OnMarkerSelect (Some id)]
       else [])).

(** [selectedMarkerId !== markerId]. *)
Definition notSelected (props : Props) (markerId : string) : bool :=
  match selectedMarkerId props with
  | Some sel => negb (sel =? markerId)%string
  | None => true
  end.

(** Handle marker drag start. *)
Definition handleMarkerDragStart (props : Props) (st : State)
  (e : DragEvent.t) (markerId : string) : State * list Call :=
  if negb (DragEvent.ctrlKey e) then (st, [StopDrag]) else
  (setCursor CursorGrabbing st,
   if onMarkerSelect props && notSelected props markerId
   then [OnMarkerSelect (Some markerId)]
   else []).

(** Handle marker drag move. *)
Definition handleMarkerDragMove (props : Props) (st : State)
  (e : DragEvent.t) : State * list Call :=
  (st, []).

(** Handle drag end - update marker position. *)
Definition handleMarkerDragEnd (props : Props) (st : State)
  (e : DragEvent.t) (markerId : string) : State * list Call :=
  let shape := DragEvent.target e in
  let st' := setCursor CursorDefault st in
  if negb (onMarkerMove props) then (st', []) else
  let x := (Rect.x shape - Point.x (position st)) / scale st in
  let y := (Rect.y shape - Point.y (position st)) / scale st in
  let width := Rect.width shape / scale st in
  let height := Rect.height shape / scale st in
  (st', [OnMarkerMove markerId x y width height]).

(** Drag start of the current selection. *)
Definition handleSelectionDragStart (props : Props) (st : State)
  (e : DragEvent.t) : State * list Call :=
  if negb (DragEvent.ctrlKey e) then (st, [StopDrag]) else
  (setCursor CursorGrabbing st, []).

(** Drag move of the current selection. *)
Definition handleSelectionDragMove (props : Props) (st : State)
  (e : DragEvent.t) : State * list Call :=
  (st, []).

(** Drag end of the current selection. *)
Definition handleSelectionDragEnd (props : Props) (st : State)
  (e : DragEvent.t) : State * list Call :=
  let shape := DragEvent.target e in
  let x := (Rect.x shape - Point.x (position st)) / scale st in
  let y := (Rect.y shape - Point.y (position st)) / scale st in
  (setImageSelection
     (Selection.mk x y (Selection.width (imageSelection st))
                   (Selection.height (imageSelection st)) true)
     (setCursor CursorDefault st),
   notifySelectionChange props
     (SelectionChange.mk x y (Selection.width (imageSelection st))
                         (Selection.height (imageSelection st)) true None)).

(** [e.key === " " || e.code === "Space"]. *)
Definition isSpaceKey (e : KeyboardEvent.t) : bool :=
  (KeyboardEvent.key e =? " ")%string
  || (KeyboardEvent.code e =? "Space")%string.

(** [e.key === "Alt" || e.code === "AltLeft" || e.code === "AltRight"]. *)
Definition isAltKey (e : KeyboardEvent.t) : bool :=
  (KeyboardEvent.key e =? "Alt")%string
  || (KeyboardEvent.code e =? "AltLeft")%string
  || (KeyboardEvent.code e =? "AltRight")%string.

(** The window [keydown] listener. *)
Definition handleKeyDown (props : Props) (st : State) (e : KeyboardEvent.t)
  : State * list Call :=
  if isSpaceKey e
  then (setCursor CursorGrab (setSpacePressed true st), [])
  else (st, []).

(** The window [keyup] listener; [isDragging] and [isDrawing] are the values
  captured by the effect that installed it. *)
Definition handleKeyUp (props : Props) (st : State) (e : KeyboardEvent.t)
  : State * list Call :=
  let st1 :=
    if isSpaceKey e
    then
      let s := setCursor CursorDefault (setSpacePressed false st) in
      if isDragging st then setIsDragging false s else s
    else st in
  let st2 :=
    if isAltKey e && isDrawing st then setIsDrawing false st1 else st1 in
  (st2, []).

(** Handle transform end for markers. *)
Definition handleMarkerTransformEnd (props : Props) (st : State)
  (e : DragEvent.t) (markerId : string) : State * list Call :=
  if negb (onMarkerMove props) || negb (transformerRef st) then (st, []) else
  let node := DragEvent.target e in
  let scaleX := Rect.scaleX node in
  let scaleY := Rect.scaleY node in
  let x := (Rect.x node - Point.x (position st)) / scale st in
  let y := (Rect.y node - Point.y (position st)) / scale st in
  let width := (Rect.width node * scaleX) / scale st in
  let height := (Rect.height node * scaleY) / scale st in
  (st, [OnMarkerMove markerId x y width height]).

(** Handle transform end for selection. *)
Definition handleSelectionTransformEnd (props : Props) (st : State)
  (e : DragEvent.t) : State * list Call :=
  if negb (onSelectionChange props) || negb (transformerRef st)
  then (st, [])
  else
  let node := DragEvent.target e in
  let scaleX := Rect.scaleX node in
  let scaleY := Rect.scaleY node in
  let x := (Rect.x node - Point.x (position st)) / scale st in
  let y := (Rect.y node - Point.y (position st)) / scale st in
  let width := (Rect.width node * scaleX) / scale st in
  let height := (Rect.height node * scaleY) / scale st in
  let newSelection := Selection.mk x y width height true in
  (setImageSelection newSelection st,
   [OnSelectionChange (SelectionChange.of_selection newSelection None)]).

(** *** What the component renders *)

(** The [x], [y], [width], [height] props of a [Rect] drawn for an
  image-space rectangle: [position + coordinate * scale] and
  [dimension * scale]. *)
Definition rectProps (st : State) (x y width height : number) : Rect.t :=
  Rect.mk (Point.x (position st) + x * scale st)
          (Point.y (position st) + y * scale st)
          (width * scale st) (height * scale st) 1 1.

(** The [Rect] of the current selection, rendered when it is visible. *)
Definition selectionRect (st : State) : option Rect.t :=
  if Selection.visible (imageSelection st)
  then Some (rectProps st (Selection.x (imageSelection st))
                          (Selection.y (imageSelection st))
                          (Selection.width (imageSelection st))
                          (Selection.height (imageSelection st)))
  else None.

(** The [Rect] of a saved marker. *)
Definition markerRect (st : State) (marker : Marker.t) : Rect.t :=
  rectProps st (Marker.x marker) (Marker.y marker)
            (Marker.width marker) (Marker.height marker).

(** The transformer's [boundBoxFunc]. *)
Definition boundBoxFunc (st : State) (oldBox newBox : Box.t) : Box.t :=
  let minSize := 5 * scale st in
  if ltb (Box.width newBox) minSize || ltb (Box.height newBox) minSize
  then oldBox
  else newBox.

(** The transformer's [rotateEnabled] and [keepRatio] props. *)
Definition rotateEnabled : bool := false.

Definition keepRatio : bool := false.

End ImageViewer.

(** ** The [ImageMarkerPage] component *)

Module ImageMarkerPage.

(** The page's [useState] cells. [selection] holds the object last passed
  to [setSelection], optional flag included. *)
Record State : Type := mkState {
  markers : list Marker.t;
  selection : SelectionChange.t;
  selectedMarkerId : option string
}.

Definition initialState : State :=
  mkState [] (SelectionChange.mk 0 0 0 0 false None) None.

Definition setMarkers (v : list Marker.t) (s : State) : State :=
  mkState v (selection s) (selectedMarkerId s).

Definition setSelection (v : SelectionChange.t) (s : State) : State :=
  mkState (markers s) v (selectedMarkerId s).

Definition setSelectedMarkerId (v : option string) (s : State) : State :=
  mkState (markers s) (selection s) v.

(** Handle selection change from the ImageViewer component. *)
Definition handleSelectionChange (selection : SelectionChange.t)
  (ps : State) : State :=
  let ps' := setSelection selection ps in
  if SelectionChange.visible selection && SelectionChange.isNew selection
  then setSelectedMarkerId None ps'
  else ps'.

(** The decimal text of an integer, as a template literal prints it. *)
Definition numberToString (n : Z) : string :=
  NilEmpty.string_of_int (Z.to_int n).

(** Add a new marker. [now] is the value [Date.now()] returns at the
  call. *)
Definition handleAddMarker (now : Z) (marker : NewMarker.t) (ps : State)
  : State * string :=
  let newMarker :=
    Marker.mk ("marker-" ++ numberToString now)
              (NewMarker.name marker) (NewMarker.x marker)
              (NewMarker.y marker) (NewMarker.width marker)
              (NewMarker.height marker) (NewMarker.ocrText marker) in
  (setMarkers (markers ps ++ [newMarker]) ps, Marker.id newMarker).

(** Update an existing marker. *)
Definition handleUpdateMarker (id : string) (markerData : PartialMarker.t)
  (ps : State) : State :=
  setMarkers
    (map (fun marker =>
            if (Marker.id marker =? id)%string
            then PartialMarker.merge marker markerData
            else marker)
         (markers ps)) ps.

(** Handle marker position change. *)
Definition handleMarkerMove (id : string) (x y width height : number)
  (ps : State) : State :=
  handleUpdateMarker id
    (PartialMarker.mk None None (Some x) (Some y) (Some width) (Some height)
                      None) ps.

(** Delete a marker. *)
Definition handleDeleteMarker (id : string) (ps : State) : State :=
  let ps' :=
    setMarkers
      (filter (fun marker => negb (Marker.id marker =? id)%string)
              (markers ps)) ps in
  match selectedMarkerId ps with
  | Some sel =>
      if (sel =? id)%string then setSelectedMarkerId None ps' else ps'
  | None => ps'
  end.

(** A run of [handleAddMarker] calls, each with the clock reading of its
  call; the identifiers returned, in call order. *)
Fixpoint addMarkers (calls : list (Z * NewMarker.t)) (ps : State)
  : State * list string :=
  match calls with
  | [] => (ps, [])
  | (now, marker) :: rest =>
      let (ps1, id) := handleAddMarker now marker ps in
      let (ps2, ids) := addMarkers rest ps1 in
      (ps2, id :: ids)
  end.

(** The props the page passes to [<ImageViewer ... />]. *)
Definition viewerProps (ps : State) : ImageViewer.Props :=
  ImageViewer.mkProps
    (Some (SelectionChange.selection (selection ps)))
    true
    (markers ps)
    (selectedMarkerId ps)
    true
    true.

(** What the page does with a call of the viewer: [onSelectionChange] is
  [handleSelectionChange], [onMarkerSelect] is [setSelectedMarkerId],
  [onMarkerMove] is [handleMarkerMove]; [stopDrag] is Konva's. *)
Definition receive (ps : State) (c : Call) : State :=
  match c with
  | OnSelectionChange selection => handleSelectionChange selection ps
  | OnMarkerSelect id => setSelectedMarkerId id ps
  | OnMarkerMove id x y width height =>
      handleMarkerMove id x y width height ps
  | StopDrag => ps
  end.

End ImageMarkerPage.

(** ** The page and its viewer together *)

Module App.

Import Konva.

Record State : Type := mk {
  page : ImageMarkerPage.State;
  viewer : ImageViewer.State
}.

Definition initialState : State :=
  mk ImageMarkerPage.initialState ImageViewer.initialState.

(** The user's actions on the viewer. *)
Inductive Event : Type :=
| ImageLoad (img : Size.t) (container : option Size.t)
| MouseDown (e : MouseEvent.t)
| MouseMove (e : MouseEvent.t)
| MouseUp (e : MouseEvent.t)
| Wheel (e : WheelEvent.t)
| MarkerClick (id : string)
| MarkerDragStart (id : string) (e : DragEvent.t)
| MarkerDragMove (id : string) (e : DragEvent.t)
| MarkerDragEnd (id : string) (e : DragEvent.t)
| MarkerTransformEnd (id : string) (e : DragEvent.t)
| SelectionDragStart (e : DragEvent.t)
| SelectionDragMove (e : DragEvent.t)
| SelectionDragEnd (e : DragEvent.t)
| SelectionTransformEnd (e : DragEvent.t)
| KeyDown (e : KeyboardEvent.t)
| KeyUp (e : KeyboardEvent.t).

(** [markers.map(...)] renders a [Rect] for the marker [id]. *)
Definition hasMarker (id : string) (ms : list Marker.t) : bool :=
  existsb (fun marker => (Marker.id marker =? id)%string) ms.

(** The element an event is bound to is rendered: the [Stage] and all
  shapes only with an image, a marker's [Rect] only for a marker of the
  collection, the selection's [Rect] only while the selection is visible.
  Image loading and the window's key listeners are always there. *)
Definition rendered (s : State) (ev : Event) : bool :=
  match ev with
  | ImageLoad _ _ | KeyDown _ | KeyUp _ => true
  | MouseDown _ | MouseMove _ | MouseUp _ | Wheel _ =>
      ImageViewer.hasImage (viewer s)
  | MarkerClick id | MarkerDragStart id _ | MarkerDragMove id _
  | MarkerDragEnd id _ | MarkerTransformEnd id _ =>
      ImageViewer.hasImage (viewer s)
      && hasMarker id (ImageMarkerPage.markers (page s))
  | SelectionDragStart _ | SelectionDragMove _ | SelectionDragEnd _
  | SelectionTransformEnd _ =>
      ImageViewer.hasImage (viewer s)
      && Selection.visible (ImageViewer.imageSelection (viewer s))
  end.

(** The handler bound to each event. *)
Definition handle (props : ImageViewer.Props) (st : ImageViewer.State)
  (ev : Event) : ImageViewer.State * list Call :=
  match ev with
  | ImageLoad img container => ImageViewer.handleImageUpload img container st
  | MouseDown e => ImageViewer.handleMouseDown props st e
  | MouseMove e => ImageViewer.handleMouseMove props st e
  | MouseUp e => ImageViewer.handleMouseUp props st e
  | Wheel e => ImageViewer.handleWheel props st e
  | MarkerClick id => ImageViewer.handleMarkerClick props st id
  | MarkerDragStart id e => ImageViewer.handleMarkerDragStart props st e id
  | MarkerDragMove id e => ImageViewer.handleMarkerDragMove props st e
  | MarkerDragEnd id e => ImageViewer.handleMarkerDragEnd props st e id
  | MarkerTransformEnd id e =>
      ImageViewer.handleMarkerTransformEnd props st e id
  | SelectionDragStart e => ImageViewer.handleSelectionDragStart props st e
  | SelectionDragMove e => ImageViewer.handleSelectionDragMove props st e
  | SelectionDragEnd e => ImageViewer.handleSelectionDragEnd props st e
  | SelectionTransformEnd e =>
      ImageViewer.handleSelectionTransformEnd props st e
  | KeyDown e => ImageViewer.handleKeyDown props st e
  | KeyUp e => ImageViewer.handleKeyUp props st e
  end.

(** One event: the viewer's handler runs on the props of the current
  render, the page receives its calls in order, and, when the page's
  [selection] was set anew, the viewer's synchronisation effect runs on
  the new prop. *)
Definition step (s : State) (ev : Event) : State :=
  if negb (rendered s ev) then s else
  let (v1, calls) :=
    handle (ImageMarkerPage.viewerProps (page s)) (viewer s) ev in
  let page1 := fold_left ImageMarkerPage.receive calls (page s) in
  let v2 :=
    if existsb isOnSelectionChange calls
    then fst (ImageViewer.syncSelectionProp
                (ImageMarkerPage.viewerProps page1) v1)
    else v1 in
  mk page1 v2.

Definition run (s : State) (events : list Event) : State :=
  fold_left step events s.

(** Some marker is focused. *)
Definition markerFocused (s : State) : bool :=
  match ImageMarkerPage.selectedMarkerId (page s) with
  | Some _ => true
  | None => false
  end.

(** The transient selection is visible, in the viewer or in the page. *)
Definition selectionVisible (s : State) : bool :=
  Selection.visible (ImageViewer.imageSelection (viewer s))
  || SelectionChange.visible (ImageMarkerPage.selection (page s)).

(** The selection is visible and a marker is focused at once. *)
Definition bothActive (s : State) : bool :=
  selectionVisible s && markerFocused s.

(** The outward calls the viewer makes on one event, in order. *)
Definition calls (s : State) (ev : Event) : list Call :=
  if negb (rendered s ev) then [] else
  snd (handle (ImageMarkerPage.viewerProps (page s)) (viewer s) ev).

(** The outward calls made along a run of events. *)
Fixpoint trace (s : State) (events : list Event) : list Call :=
  match events with
  | [] => []
  | ev :: rest => calls s ev ++ trace (step s ev) rest
  end.

End App.

(** ** Vocabulary of the specification *)

Module Spec.

(** [v] clamped to [[lo, hi]]. *)
Definition clamp (lo hi v : number) : number :=
  if Qlt_le_dec v lo then lo else if Qlt_le_dec hi v then hi else v.

(** [zoom(deltaSign)]: [newScale = deltaSign<0 ? scale*1.1 : scale/1.1],
  then clamp to [[0.1, 5.0]]. *)
Definition zoom (deltaSign scale : number) : number :=
  clamp 0.1 5 (if Qlt_le_dec deltaSign 0 then scale * 1.1 else scale / 1.1).

(** A scale of the valid range. *)
Definition validScale (scale : number) : Prop := 0.1 <= scale /\ scale <= 5.

End Spec.

(** A run of wheel events on the viewer. *)
Definition wheels (props : ImageViewer.Props) (st : ImageViewer.State)
  (events : list Konva.WheelEvent.t) : ImageViewer.State :=
  fold_left (fun s e => fst (ImageViewer.handleWheel props s e)) events st.

(** A Ctrl-held wheel event that zooms in. *)
Definition zoomsIn (e : Konva.WheelEvent.t) : Prop :=
  Konva.WheelEvent.ctrlKey e = true /\ Konva.WheelEvent.deltaY e < 0.

(** The target of a mouse event is the background, and the event resolves
  to its stage: [e.target.className] is not ["Rect"] and
  [e.target.getStage()] is non-null. *)
Definition onBackground (e : Konva.MouseEvent.t) : bool :=
  negb (Konva.MouseEvent.className e =? "Rect")%string
  && match Konva.MouseEvent.getStage e with Some _ => true | None => false end.

(** The stage point [p] lies on the rectangle [r]. *)
Definition within (p : Point.t) (r : Konva.Rect.t) : bool :=
  Qle_bool (Konva.Rect.x r) (Point.x p)
  && Qle_bool (Point.x p) (Konva.Rect.x r + Konva.Rect.width r)
  && Qle_bool (Konva.Rect.y r) (Point.y p)
  && Qle_bool (Point.y p) (Konva.Rect.y r + Konva.Rect.height r).

(** The [Rect] of some saved marker is drawn under the stage point [p]. *)
Definition overMarker (s : App.State) (p : Point.t) : bool :=
  existsb (fun marker =>
             within p (ImageViewer.markerRect (App.viewer s) marker))
          (ImageMarkerPage.markers (App.page s)).

(** [MarkerDragStart] with Ctrl held: the one event that focuses a marker
  without a click. *)
Definition focusingDrag (ev : App.Event) : bool :=
  match ev with
  | App.MarkerDragStart _ e => Konva.DragEvent.ctrlKey e
  | _ => false
  end.

(** ** Concrete inputs *)

Module Scenario.

Import Konva.

(** A viewer with an 800 x 600 image loaded, at the given scale and
  origin, nothing selected, no gesture going on. *)
Definition viewerAt (scale : number) (position : Point.t)
  : ImageViewer.State :=
  ImageViewer.mkState (Some (Size.mk 800 600)) (Size.mk 800 600) scale
    position (Selection.mk 0 0 0 0 false) false (Point.mk 0 0) false false
    CursorDefault.

(** The props of a parent that passes every callback and no marker. *)
Definition plainProps : ImageViewer.Props :=
  ImageViewer.mkProps (Some (Selection.mk 0 0 0 0 false)) true [] None
    true true.

(** A Ctrl-held wheel event that zooms in. *)
Definition zoomIn : WheelEvent.t := WheelEvent.mk true (-100).

(** A mouse event on the stage background with the primary button, at the
  stage point [(x, y)], with or without Alt. *)
Definition mouseAt (x y : number) (altKey : bool) : MouseEvent.t :=
  MouseEvent.mk "Image" (Some (Stage.mk (Some (Point.mk x y)))) 0 altKey 0 0.

(** The same event when the pointer is over a shape. *)
Definition mouseOverShape (x y : number) (altKey : bool) : MouseEvent.t :=
  MouseEvent.mk "Rect" (Some (Stage.mk (Some (Point.mk x y)))) 0 altKey 0 0.

(** A pointer move of [(dx, dy)] pixels over the background. *)
Definition mouseMovedBy (dx dy : number) : MouseEvent.t :=
  MouseEvent.mk "Image" (Some (Stage.mk (Some (Point.mk 0 0)))) 0 false
    dx dy.

(** The application once an 800 x 600 image is loaded, the container not
  yet measured: scale 1, origin [(0, 0)]. *)
Definition loaded : App.State :=
  App.step App.initialState (App.ImageLoad (Size.mk 800 600) None).

(** A marker as the form saves it. *)
Definition markerA : NewMarker.t := NewMarker.mk "A" 100 100 40 20 None.

(** [loaded], with [markerA] saved at clock reading 1700000000000. *)
Definition loadedWithMarker : App.State :=
  App.mk (fst (ImageMarkerPage.handleAddMarker 1700000000000 markerA
                 (App.page loaded)))
         (App.viewer loaded).

(** A drag event on a shape at rest at the stage point [(x, y)]. *)
Definition dragOf (ctrlKey : bool) (x y width height : number)
  : DragEvent.t :=
  DragEvent.mk ctrlKey (Rect.mk x y width height 1 1).

(** Drawing a selection: Alt held, press at [(10, 10)], move to
  [(60, 40)], release. *)
Definition drawEvents : list App.Event :=
  [App.MouseDown (mouseAt 10 10 true);
   App.MouseMove (mouseAt 60 40 true);
   App.MouseUp (mouseAt 60 40 true)].

(** The start of a Ctrl-held drag of the saved marker, whose [Rect] is at
  rest at [(100, 100)] with size 40 x 20. *)
Definition ctrlDragStart : App.Event :=
  App.MarkerDragStart "marker-1700000000000" (dragOf true 100 100 40 20).

(** A pointer move of [(dx, dy)] pixels that brings the pointer to the
  stage point [(x, y)], over a shape or over the background. *)
Definition movedOverShape (x y dx dy : number) : MouseEvent.t :=
  MouseEvent.mk "Rect" (Some (Stage.mk (Some (Point.mk x y)))) 0 false
    dx dy.

Definition movedOverBackground (x y dx dy : number) : MouseEvent.t :=
  MouseEvent.mk "Image" (Some (Stage.mk (Some (Point.mk x y)))) 0 false
    dx dy.

(** [loadedWithMarker] in the middle of drawing a selection: Alt held,
  press at [(10, 10)] on the background, the pointer now at [(60, 40)],
  still on the background. The saved marker's [Rect] covers the stage
  points from [(100, 100)] to [(140, 120)]. *)
Definition drawing : App.State :=
  App.run loadedWithMarker
    [App.MouseDown (mouseAt 10 10 true);
     App.MouseMove (mouseAt 60 40 true)].

(** [loadedWithMarker] in the middle of a pan: Space held, press at
  [(98, 117)] on the background, just left of the saved marker. *)
Definition panning : App.State :=
  App.run loadedWithMarker
    [App.KeyDown (KeyboardEvent.mk " " "Space");
     App.MouseDown (mouseAt 98 117 false)].

(** [loaded] once the selection of [drawEvents] is drawn: the selection
  [{x:10, y:10, width:50, height:30}] is visible and its [Rect] is at rest
  at [(10, 10)] with size 50 x 30. *)
Definition drawn : App.State := App.run loaded drawEvents.

(** A drag of the saved marker, and one of the drawn selection, attempted
  without Ctrl: the shape's [dragstart], whose handler calls [stopDrag],
  and the [dragend] that ends the drag, the shape still at rest. *)
Definition plainMarkerDrag : list App.Event :=
  [App.MarkerDragStart "marker-1700000000000" (dragOf false 100 100 40 20);
   App.MarkerDragEnd "marker-1700000000000" (dragOf false 100 100 40 20)].

Definition plainSelectionDrag : list App.Event :=
  [App.SelectionDragStart (dragOf false 10 10 50 30);
   App.SelectionDragEnd (dragOf false 10 10 50 30)].

(** A drag of the saved marker with Ctrl held, the shape dropped
  [(30, -10)] stage pixels from its place. *)
Definition ctrlMarkerDrag : list App.Event :=
  [App.MarkerDragStart "marker-1700000000000" (dragOf true 100 100 40 20);
   App.MarkerDragEnd "marker-1700000000000" (dragOf true 130 90 40 20)].

End Scenario.

(** ** The rest of the viewer: handle binding, resized nodes, event runs *)

(** Truthiness of [selectedMarkerId]: a non-null, non-empty string. *)
Definition truthyId (id : option string) : bool :=
  match id with
  | Some s => negb (s =? "")%string
  | None => false
  end.

Module Transformer.

(** What [transformerRef.current.nodes(...)] was last given. *)
Inductive Nodes : Type :=
| NoNodes
| MarkerNode (id : string)
| SelectionNode.

(** The effect on [selectedMarkerId] and [imageSelection.visible] that
  attaches the transformer. [markerRefs.current], which the [Rect]s' ref
  callbacks fill, holds a node for an id when a marker with that id is
  rendered (ids taken as the distinct keys they are used as), and
  [selectionRef.current] is set exactly while the selection's [Rect] is
  rendered, that is while the selection is visible. [nodes] is what the
  transformer was attached to before. *)
Definition updateTransformer (props : ImageViewer.Props)
  (st : ImageViewer.State) (nodes : Nodes) : Nodes :=
  if negb (ImageViewer.transformerRef st) then nodes else
  if truthyId (ImageViewer.selectedMarkerId props)
  then
    match ImageViewer.selectedMarkerId props with
    | Some id =>
        if App.hasMarker id (ImageViewer.markers props)
        then MarkerNode id
        else nodes
    | None => nodes
    end
  else
  if Selection.visible (ImageViewer.imageSelection st)
  then SelectionNode
  else NoNodes.

(** The effect on the page and its viewer. *)
Definition bind (s : App.State) (nodes : Nodes) : Nodes :=
  updateTransformer (ImageMarkerPage.viewerProps (App.page s))
                    (App.viewer s) nodes.

(** The node of a rendered rectangle after the transformer moved it by
  [(dx, dy)] stage pixels and set its scale factors to [(sx, sy)]. *)
Definition transformedBy (dx dy sx sy : number) (r : Konva.Rect.t)
  : Konva.Rect.t :=
  Konva.Rect.mk (Konva.Rect.x r + dx) (Konva.Rect.y r + dy)
                (Konva.Rect.width r) (Konva.Rect.height r) sx sy.

End Transformer.

(** A run of mouse-move events on the viewer. *)
Definition moves (props : ImageViewer.Props) (st : ImageViewer.State)
  (events : list Konva.MouseEvent.t) : ImageViewer.State :=
  fold_left (fun s e => fst (ImageViewer.handleMouseMove props s e))
            events st.

(** The sums of the [movementX] and of the [movementY] of a run of
  events. *)
Definition totalMovementX (events : list Konva.MouseEvent.t) : number :=
  fold_right (fun e acc => Konva.MouseEvent.movementX e + acc) 0 events.

Definition totalMovementY (events : list Konva.MouseEvent.t) : number :=
  fold_right (fun e acc => Konva.MouseEvent.movementY e + acc) 0 events.

(** The currently selected marker of the page:
  [selectedMarkerId ? markers.find((m) => m.id === selectedMarkerId) || null
   : null]. *)
Definition selectedMarker (ps : ImageMarkerPage.State) : option Marker.t :=
  if truthyId (ImageMarkerPage.selectedMarkerId ps)
  then
    match ImageMarkerPage.selectedMarkerId ps with
    | Some id =>
        find (fun m => (Marker.id m =? id)%string)
             (ImageMarkerPage.markers ps)
    | None => None
    end
  else None.

(** ** The [ImageMarkerForm] component

  The form sits beside the viewer on the page, which passes it its
  [selection], [markers], [selectedMarker] and [selectedMarkerId], and its
  own handlers as callbacks: [onSelectMarker] is [setSelectedMarkerId],
  [onAddMarker] is [handleAddMarker], [onUpdateMarker] is
  [handleUpdateMarker], [onDeleteMarker] is [handleDeleteMarker] and
  [onSelectionChange] is [handleSelectionChange]. A form function reads the
  page state of its render and applies the callbacks to it in call
  order. *)

Module ImageMarkerForm.

(** [FormValues], the values react-hook-form holds. *)
Record FormValues : Type := mkValues {
  name : string;
  selectionX : number;
  selectionY : number;
  selectionWidth : number;
  selectionHeight : number;
  ocrTextDisplay : option string
}.

Definition defaultValues : FormValues := mkValues "" 0 0 0 0 (Some ""%string).

(** [formSchema]: a name of at least one character and non-negative
  numbers; the OCR text is any string or absent. *)
Definition formSchema (data : FormValues) : bool :=
  (1 <=? String.length (name data))%nat
  && Qle_bool 0 (selectionX data)
  && Qle_bool 0 (selectionY data)
  && Qle_bool 0 (selectionWidth data)
  && Qle_bool 0 (selectionHeight data).

(** The user types in the name field. *)
Definition typeName (text : string) (values : FormValues) : FormValues :=
  mkValues text (selectionX values) (selectionY values)
           (selectionWidth values) (selectionHeight values)
           (ocrTextDisplay values).

(** The mock OCR result of a selection. *)
Definition mockOcr (selection : SelectionChange.t) : string :=
  if ltb 5 (SelectionChange.width selection)
     && ltb 5 (SelectionChange.height selection)
  then "Sample OCR text from selected area"
  else "".

(** Update form when selection changes. *)
Definition syncFromSelection (ps : ImageMarkerPage.State)
  (values : FormValues) : FormValues :=
  if SelectionChange.visible (ImageMarkerPage.selection ps)
     && negb (truthyId (ImageMarkerPage.selectedMarkerId ps))
  then
    mkValues ""
             (SelectionChange.x (ImageMarkerPage.selection ps))
             (SelectionChange.y (ImageMarkerPage.selection ps))
             (SelectionChange.width (ImageMarkerPage.selection ps))
             (SelectionChange.height (ImageMarkerPage.selection ps))
             (Some (mockOcr (ImageMarkerPage.selection ps)))
  else values.

(** Update form when a marker is selected. *)
Definition syncFromMarker (ps : ImageMarkerPage.State)
  (values : FormValues) : FormValues :=
  match selectedMarker ps with
  | Some m =>
      mkValues (Marker.name m) (Marker.x m) (Marker.y m) (Marker.width m)
               (Marker.height m)
               (Some (match Marker.ocrText m with
                      | Some text => text
                      | None => ""%string
                      end))
  | None => values
  end.

(** Clear form when selection is cleared. *)
Definition clearWhenIdle (ps : ImageMarkerPage.State)
  (values : FormValues) : FormValues :=
  if negb (SelectionChange.visible (ImageMarkerPage.selection ps))
     && negb (truthyId (ImageMarkerPage.selectedMarkerId ps))
  then defaultValues
  else values.

(** [onSubmit]. [now] is the value [Date.now()] returns if a marker is
  added. *)
Definition onSubmit (now : Z) (data : FormValues)
  (ps : ImageMarkerPage.State) : ImageMarkerPage.State :=
  let ps1 :=
    if truthyId (ImageMarkerPage.selectedMarkerId ps)
    then
      match ImageMarkerPage.selectedMarkerId ps with
      | Some id =>
          ImageMarkerPage.setSelectedMarkerId (Some id)
            (ImageMarkerPage.handleUpdateMarker id
               (PartialMarker.mk None (Some (name data))
                  (Some (selectionX data)) (Some (selectionY data))
                  (Some (selectionWidth data)) (Some (selectionHeight data))
                  (Some (ocrTextDisplay data))) ps)
      | None => ps
      end
    else
    if SelectionChange.visible (ImageMarkerPage.selection ps)
    then
      let (ps', newMarkerId) :=
        ImageMarkerPage.handleAddMarker now
          (NewMarker.mk (name data) (selectionX data) (selectionY data)
                        (selectionWidth data) (selectionHeight data)
                        (ocrTextDisplay data)) ps in
      ImageMarkerPage.setSelectedMarkerId (Some newMarkerId) ps'
    else ps in
  ImageMarkerPage.handleSelectionChange
    (SelectionChange.mk 0 0 0 0 false None) ps1.

(** [selection.visible || selectedMarkerId !== null]: the form is
  rendered. *)
Definition hasValidSelection (ps : ImageMarkerPage.State) : bool :=
  SelectionChange.visible (ImageMarkerPage.selection ps)
  || match ImageMarkerPage.selectedMarkerId ps with
     | Some _ => true
     | None => false
     end.

(** [handleSubmit(onSubmit)] of the rendered form: [onSubmit] runs on
  values that pass [formSchema], and nothing happens on others. *)
Definition handleSubmit (now : Z) (data : FormValues)
  (ps : ImageMarkerPage.State) : ImageMarkerPage.State :=
  if negb (hasValidSelection ps) then ps else
  if formSchema data then onSubmit now data ps else ps.

(** The delete button. *)
Definition handleDeleteMarker (ps : ImageMarkerPage.State)
  : ImageMarkerPage.State :=
  if truthyId (ImageMarkerPage.selectedMarkerId ps)
  then
    match ImageMarkerPage.selectedMarkerId ps with
    | Some id => ImageMarkerPage.handleDeleteMarker id ps
    | None => ps
    end
  else ps.

(** A submit on the page beside its viewer: when the page's [selection]
  was set anew, the viewer's synchronisation effect runs on the new
  prop. *)
Definition submit (now : Z) (data : FormValues) (s : App.State)
  : App.State :=
  if hasValidSelection (App.page s) && formSchema data
  then
    App.mk (handleSubmit now data (App.page s))
           (fst (ImageViewer.syncSelectionProp
                   (ImageMarkerPage.viewerProps
                      (handleSubmit now data (App.page s)))
                   (App.viewer s)))
  else s.

End ImageMarkerForm.

(** A marker's own drag end or transform end: the events whose handler
  calls [onMarkerMove]. *)
Definition commitsMarker (ev : App.Event) : bool :=
  match ev with
  | App.MarkerDragEnd _ _ | App.MarkerTransformEnd _ _ => true
  | _ => false
  end.

(** * Properties *)

(** Case analysis on every test of a handler's body. *)
Ltac branches :=
  repeat match goal with
         | |- context [if ?b then _ else _] => destruct b eqn:?
         | |- context [match ?x with Some _ => _ | None => _ end] =>
             destruct x eqn:?
         end.

(** ** Numbers *)

Lemma ltb_lt (a b : number) : ltb a b = true <-> a < b.
Proof.
  unfold ltb. rewrite negb_true_iff.
  split; intro H.
  - apply Qnot_le_lt. intro L. apply Qle_bool_iff in L. congruence.
  - destruct (Qle_bool b a) eqn:E; [|reflexivity].
    apply Qle_bool_iff in E. exfalso. apply (Qlt_not_le _ _ H E).
Qed.

Lemma ltb_ge (a b : number) : ltb a b = false <-> b <= a.
Proof.
  unfold ltb. rewrite negb_false_iff. apply Qle_bool_iff.
Qed.

Lemma neqb_false (a b : number) : neqb a b = false <-> a == b.
Proof.
  unfold neqb. rewrite negb_false_iff. apply Qeq_bool_iff.
Qed.

Lemma max_min_clamp (lo hi v : number) :
  lo <= hi -> Math.max lo (Math.min hi v) == Spec.clamp lo hi v.
Proof.
  intro Hlh. unfold Math.max, Math.min, Spec.clamp.
  destruct (Qlt_le_dec v lo) as [L|L].
  - rewrite Q.max_l; [reflexivity|].
    rewrite Q.min_r; lra.
  - destruct (Qlt_le_dec hi v) as [U|U].
    + rewrite Q.min_l by lra. apply Q.max_r; exact Hlh.
    + rewrite Q.min_r by exact U. apply Q.max_r; exact L.
Qed.

Lemma max_min_bounds (v : number) :
  Spec.validScale (Math.max 0.1 (Math.min 5 v)).
Proof.
  unfold Math.max, Math.min. split.
  - apply Q.le_max_l.
  - apply Q.max_lub; [lra | apply Q.le_min_l].
Qed.

(** ** Zoom *)

Section Zoom.

Import Konva.
Import ImageViewer.

Lemma handleWheel_zooms (props : Props) (st : State) (e : WheelEvent.t) :
  WheelEvent.ctrlKey e = true -> hasImage st = true ->
  handleWheel props st e =
    (setScale
       (Math.max 0.1
          (Math.min 5 (if ltb (WheelEvent.deltaY e) 0
                       then scale st * 1.1 else scale st / 1.1))) st, []).
Proof.
  intros Hc Hi. unfold handleWheel, stageRef. rewrite Hc, Hi. reflexivity.
Qed.

Lemma handleWheel_scale_valid (props : Props) (st : State) (e : WheelEvent.t) :
  Spec.validScale (scale st) ->
  Spec.validScale (scale (fst (handleWheel props st e))).
Proof.
  intro Hv. unfold handleWheel.
  branches; cbn [fst scale setScale]; auto using max_min_bounds.
Qed.

Lemma sync_scale (props : Props) (st : State) :
  scale (fst (syncSelectionProp props st)) = scale st.
Proof.
  unfold syncSelectionProp. branches; reflexivity.
Qed.

Lemma handle_scale_valid (props : Props) (st : State) (ev : App.Event) :
  Spec.validScale (scale st) ->
  Spec.validScale (scale (fst (App.handle props st ev))).
Proof.
  intro Hv. destruct ev; cbn [App.handle];
    try (apply handleWheel_scale_valid; exact Hv).
  - unfold handleImageUpload. cbn. unfold Spec.validScale. lra.
  - unfold handleMouseDown. branches; cbn; exact Hv.
  - unfold handleMouseMove. branches; cbn; exact Hv.
  - unfold handleMouseUp. branches; cbn; exact Hv.
  - exact Hv.
  - unfold handleMarkerDragStart. branches; cbn; exact Hv.
  - exact Hv.
  - unfold handleMarkerDragEnd. branches; cbn; exact Hv.
  - unfold handleMarkerTransformEnd. branches; cbn; exact Hv.
  - unfold handleSelectionDragStart. branches; cbn; exact Hv.
  - exact Hv.
  - exact Hv.
  - unfold handleSelectionTransformEnd. branches; cbn; exact Hv.
  - unfold handleKeyDown. branches; cbn; exact Hv.
  - unfold handleKeyUp. branches; cbn; exact Hv.
Qed.

Lemma step_scale_valid (s : App.State) (ev : App.Event) :
  Spec.validScale (scale (App.viewer s)) ->
  Spec.validScale (scale (App.viewer (App.step s ev))).
Proof.
  intro Hv. unfold App.step.
  destruct (negb (App.rendered s ev)); [exact Hv|].
  pose proof (handle_scale_valid
                (ImageMarkerPage.viewerProps (App.page s)) _ ev Hv) as H.
  destruct (App.handle _ _ ev) as [v1 calls]. cbn [fst] in H.
  cbn [App.viewer].
  destruct (existsb isOnSelectionChange calls); [|exact H].
  rewrite sync_scale. exact H.
Qed.

Lemma run_scale_valid (events : list App.Event) (s : App.State) :
  Spec.validScale (scale (App.viewer s)) ->
  Spec.validScale (scale (App.viewer (App.run s events))).
Proof.
  revert s. induction events as [|ev events IH]; intros s Hv; cbn.
  - exact Hv.
  - apply IH. apply step_scale_valid. exact Hv.
Qed.

Lemma zoom_in_saturates (props : Props) (st : State) (e : WheelEvent.t) :
  hasImage st = true -> zoomsIn e ->
  50 # 11 <= scale st -> 
  scale (fst (handleWheel props st e)) == 5
  /\ hasImage (fst (handleWheel props st e)) = true.
Proof.
  intros Hi [Hc Hd] Hs.
  rewrite (handleWheel_zooms props st e Hc Hi). cbn [fst scale setScale].
  split; [|exact Hi].
  apply ltb_lt in Hd. rewrite Hd.
  unfold Math.max, Math.min.
  destruct (Q.min_spec 5 (scale st * 1.1)) as [[H1 H2]|[H1 H2]];
    destruct (Q.max_spec 0.1 (Qmin 5 (scale st * 1.1))) as [[H3 H4]|[H3 H4]];
    lra.
Qed.

Lemma zoom_in_run_saturates (props : Props) (events : list WheelEvent.t) :
  forall st, hasImage st = true -> Forall zoomsIn events ->
  events <> [] -> 50 # 11 <= scale st ->
  scale (wheels props st events) == 5.
Proof.
  induction events as [|e events IH]; intros st Hi Hall Hne Hs.
  - congruence.
  - inversion Hall as [|? ? He Hrest]; subst.
    destruct (zoom_in_saturates props st e Hi He Hs) as [H5 Hi'].
    unfold wheels in *. cbn [fold_left].
    destruct events as [|e' events'].
    + exact H5.
    + apply IH; [exact Hi' | exact Hrest | discriminate | rewrite H5; lra].
Qed.

(** C2. A Ctrl-held wheel event on the loaded image sets the scale to
  [scale * 1.1] when [deltaY < 0] and to [scale / 1.1] otherwise, clamped
  to [[0.1, 5]]; a wheel event without Ctrl changes nothing. So a valid
  scale stays valid along every run of events of the application, and from
  scale 4.8 six Ctrl-held zoom-in events leave the scale at 5. *)
Theorem wheel_zoom_clamped :
  (forall props st e,
      WheelEvent.ctrlKey e = true -> hasImage st = true ->
      scale (fst (handleWheel props st e))
      == Spec.zoom (WheelEvent.deltaY e) (scale st))
  /\ (forall props st e,
         WheelEvent.ctrlKey e = false -> handleWheel props st e = (st, []))
  /\ (forall s events,
         Spec.validScale (scale (App.viewer s)) ->
         Spec.validScale (scale (App.viewer (App.run s events))))
  /\ (forall props st events,
         Spec.validScale (scale st) ->
         Spec.validScale (scale (wheels props st events)))
  /\ (forall props st events,
         hasImage st = true -> scale st == 4.8 ->
         List.length events = 6%nat -> Forall zoomsIn events ->
         scale (wheels props st events) == 5).
Proof.
  split; [|split; [|split; [|split]]].
  - intros props st e Hc Hi.
    rewrite (handleWheel_zooms props st e Hc Hi). cbn [fst scale setScale].
    unfold Spec.zoom. rewrite max_min_clamp by lra.
    destruct (Qlt_le_dec (WheelEvent.deltaY e) 0) as [L|L].
    + apply ltb_lt in L. rewrite L. reflexivity.
    + apply ltb_ge in L. rewrite L. reflexivity.
  - intros props st e Hc. unfold handleWheel. rewrite Hc. reflexivity.
  - intros s events. apply run_scale_valid.
  - intros props st events. revert st.
    induction events as [|e events IH]; intros st Hv; cbn.
    + exact Hv.
    + apply IH. apply handleWheel_scale_valid. exact Hv.
  - intros props st events Hi Hs Hlen Hall.
    apply zoom_in_run_saturates; auto.
    + intro E. subst. discriminate.
    + rewrite Hs. lra.
Qed.

End Zoom.

Lemma wheel_zoom_clamped_witness :
  ImageViewer.scale
    (wheels Scenario.plainProps (Scenario.viewerAt 4.8 (Point.mk 0 0))
            (repeat Scenario.zoomIn 6)) == 5.
Proof.
  apply (proj2 (proj2 (proj2 (proj2 wheel_zoom_clamped)))).
  - reflexivity.
  - reflexivity.
  - reflexivity.
  - repeat constructor.
Defined.

(** ** Coordinate transform *)

Section Transform.

Import Konva.
Import ImageViewer.

Lemma validScale_nonzero (s : number) : Spec.validScale s -> ~ s == 0.
Proof. unfold Spec.validScale. intros [H _] E. lra. Qed.

(** C3. At a valid scale, a stage point converted to image coordinates by
  [stageToImageCoords] and drawn back by the [Rect] props
  ([position + coordinate * scale]) lands on the stage point it came from.
  Numbers are exact rationals here, so the round trip is an identity; the
  rounding of the source's floating-point arithmetic is outside the
  model. *)
Theorem stage_image_round_trip (st : State) (px py width height : number) :
  Spec.validScale (scale st) ->
  Rect.x (rectProps st (Point.x (stageToImageCoords st px py))
                       (Point.y (stageToImageCoords st px py))
                       width height) == px
  /\ Rect.y (rectProps st (Point.x (stageToImageCoords st px py))
                          (Point.y (stageToImageCoords st px py))
                          width height) == py.
Proof.
  intro Hv. apply validScale_nonzero in Hv.
  unfold rectProps, stageToImageCoords. cbn.
  split; field; exact Hv.
Qed.

Lemma stage_image_round_trip_witness :
  Rect.x (rectProps (Scenario.viewerAt 2.5 (Point.mk 30 (-40)))
            (Point.x (stageToImageCoords
                        (Scenario.viewerAt 2.5 (Point.mk 30 (-40))) 100 7))
            (Point.y (stageToImageCoords
                        (Scenario.viewerAt 2.5 (Point.mk 30 (-40))) 100 7))
            0 0) == 100
  /\ Rect.y (rectProps (Scenario.viewerAt 2.5 (Point.mk 30 (-40)))
               (Point.x (stageToImageCoords
                           (Scenario.viewerAt 2.5 (Point.mk 30 (-40))) 100 7))
               (Point.y (stageToImageCoords
                           (Scenario.viewerAt 2.5 (Point.mk 30 (-40))) 100 7))
               0 0) == 7.
Proof.
  apply (stage_image_round_trip
           (Scenario.viewerAt 2.5 (Point.mk 30 (-40))) 100 7 0 0).
  unfold Spec.validScale. cbn. split; discriminate.
Defined.

End Transform.

(** ** Resize bound *)

Section Resize.

Import Konva.
Import ImageViewer.

(** C7. The transformer's bound function rejects a requested box whose
  width or height is below [5 * scale] stage pixels, returning the box the
  shape had before the attempt, and accepts every other requested box as
  it is. Rotation is disabled and the aspect ratio is not kept. *)
Theorem resize_minimum_size (st : State) (oldBox newBox : Box.t) :
  ((Box.width newBox < 5 * scale st \/ Box.height newBox < 5 * scale st)
   /\ boundBoxFunc st oldBox newBox = oldBox
   \/
   (5 * scale st <= Box.width newBox /\ 5 * scale st <= Box.height newBox)
   /\ boundBoxFunc st oldBox newBox = newBox)
  /\ rotateEnabled = false
  /\ keepRatio = false.
Proof.
  split; [|split; reflexivity].
  unfold boundBoxFunc.
  destruct (ltb (Box.width newBox) (5 * scale st)) eqn:W.
  - left. split; [|reflexivity]. left. apply ltb_lt. exact W.
  - destruct (ltb (Box.height newBox) (5 * scale st)) eqn:H.
    + left. split; [|reflexivity]. right. apply ltb_lt. exact H.
    + right. split; [|reflexivity].
      split; apply ltb_ge; assumption.
Qed.

End Resize.

(** ** Synchronisation with the selection prop *)

Section Sync.

Import ImageViewer.

Lemma setImageSelection_same (st : State) :
  setImageSelection (imageSelection st) st = st.
Proof. destruct st; reflexivity. Qed.

Lemma differs_false_iff (a b : Selection.t) :
  neqb (Selection.x a) (Selection.x b)
  || neqb (Selection.y a) (Selection.y b)
  || neqb (Selection.width a) (Selection.width b)
  || neqb (Selection.height a) (Selection.height b)
  || negb (Bool.eqb (Selection.visible a) (Selection.visible b)) = false
  <-> Selection.eq a b.
Proof.
  unfold Selection.eq.
  rewrite !orb_false_iff, !neqb_false, negb_false_iff, Bool.eqb_true_iff.
  tauto.
Qed.

(** C6. The synchronisation effect, run for a value of the selection prop.
  A supplied value that differs field-wise from the internal selection
  overwrites it: the internal selection of the resulting state is the
  supplied value. A supplied value that is field-wise equal leaves the
  state as it is. With no value supplied, a visible internal selection
  keeps its [x], [y], [width] and [height] and has [visible] set to false,
  and a hidden one is left as it is. In every case the other state cells
  (image, scale, origin, press point, gesture and key flags, cursor) are
  those of before, the effect makes no outward call, and running it again
  on its own result changes nothing. *)
Theorem selection_sync_reconciles (props : Props) (st : State) :
  (forall selectionProp,
      selection props = Some selectionProp ->
      ~ Selection.eq selectionProp (imageSelection st) ->
      fst (syncSelectionProp props st) = setImageSelection selectionProp st
      /\ imageSelection (fst (syncSelectionProp props st)) = selectionProp)
  /\ (forall selectionProp,
         selection props = Some selectionProp ->
         Selection.eq selectionProp (imageSelection st) ->
         fst (syncSelectionProp props st) = st
         /\ imageSelection (fst (syncSelectionProp props st))
            = imageSelection st)
  /\ (selection props = None ->
      Selection.visible (imageSelection st) = true ->
      fst (syncSelectionProp props st)
      = setImageSelection
          (Selection.mk (Selection.x (imageSelection st))
                        (Selection.y (imageSelection st))
                        (Selection.width (imageSelection st))
                        (Selection.height (imageSelection st)) false) st
      /\ imageSelection (fst (syncSelectionProp props st))
         = Selection.mk (Selection.x (imageSelection st))
                        (Selection.y (imageSelection st))
                        (Selection.width (imageSelection st))
                        (Selection.height (imageSelection st)) false)
  /\ (selection props = None ->
      Selection.visible (imageSelection st) = false ->
      fst (syncSelectionProp props st) = st
      /\ imageSelection (fst (syncSelectionProp props st))
         = imageSelection st)
  /\ (image (fst (syncSelectionProp props st)) = image st
      /\ imageSize (fst (syncSelectionProp props st)) = imageSize st
      /\ scale (fst (syncSelectionProp props st)) = scale st
      /\ position (fst (syncSelectionProp props st)) = position st
      /\ isDrawing (fst (syncSelectionProp props st)) = isDrawing st
      /\ startPoint (fst (syncSelectionProp props st)) = startPoint st
      /\ isDragging (fst (syncSelectionProp props st)) = isDragging st
      /\ spacePressed (fst (syncSelectionProp props st)) = spacePressed st
      /\ cursor (fst (syncSelectionProp props st)) = cursor st)
  /\ snd (syncSelectionProp props st) = []
  /\ syncSelectionProp props (fst (syncSelectionProp props st))
     = (fst (syncSelectionProp props st), []).
Proof.
  unfold syncSelectionProp.
  destruct (selection props) as [sp|] eqn:Hsel.
  - destruct (neqb (Selection.x sp) (Selection.x (imageSelection st))
              || neqb (Selection.y sp) (Selection.y (imageSelection st))
              || neqb (Selection.width sp)
                      (Selection.width (imageSelection st))
              || neqb (Selection.height sp)
                      (Selection.height (imageSelection st))
              || negb (Bool.eqb (Selection.visible sp)
                                (Selection.visible (imageSelection st))))
      eqn:D.
    + assert (Hne : ~ Selection.eq sp (imageSelection st)).
      { intro E. apply differs_false_iff in E. congruence. }
      split; [|split; [|split; [|split; [|split; [|split]]]]].
      * intros sp' [= <-] _. destruct sp; split; reflexivity.
      * intros sp' [= <-] E. contradiction.
      * discriminate.
      * discriminate.
      * repeat split; reflexivity.
      * reflexivity.
      * cbn [fst imageSelection setImageSelection Selection.x Selection.y
               Selection.width Selection.height Selection.visible].
        unfold neqb. rewrite !Qeq_bool_refl, Bool.eqb_reflx. reflexivity.
    + apply differs_false_iff in D as E.
      split; [|split; [|split; [|split; [|split; [|split]]]]].
      * intros sp' [= <-] N. contradiction.
      * intros sp' _ _. split; reflexivity.
      * discriminate.
      * discriminate.
      * repeat split; reflexivity.
      * reflexivity.
      * cbn [fst]. rewrite D. reflexivity.
  - destruct (Selection.visible (imageSelection st)) eqn:V.
    + split; [|split; [|split; [|split; [|split; [|split]]]]];
        try discriminate; try reflexivity.
      * intros _ _. split; reflexivity.
      * repeat split; reflexivity.
    + split; [|split; [|split; [|split; [|split; [|split]]]]];
        try discriminate; try reflexivity.
      * intros _ _. split; reflexivity.
      * repeat split; reflexivity.
      * cbn [fst]. rewrite V. reflexivity.
Qed.

Lemma selection_sync_reconciles_witness :
  imageSelection
    (fst (syncSelectionProp
            (mkProps (Some (Selection.mk 10 10 50 30 true)) true [] None
                     true true)
            (Scenario.viewerAt 1 (Point.mk 0 0))))
  = Selection.mk 10 10 50 30 true
  /\ fst (syncSelectionProp Scenario.plainProps
            (Scenario.viewerAt 1 (Point.mk 0 0)))
     = Scenario.viewerAt 1 (Point.mk 0 0)
  /\ imageSelection
       (fst (syncSelectionProp
               (mkProps None true [] None true true)
               (setImageSelection (Selection.mk 10 10 50 30 true)
                  (Scenario.viewerAt 1 (Point.mk 0 0)))))
     = Selection.mk 10 10 50 30 false
  /\ fst (syncSelectionProp
            (mkProps None true [] None true true)
            (Scenario.viewerAt 1 (Point.mk 0 0)))
     = Scenario.viewerAt 1 (Point.mk 0 0).
Proof.
  assert (Hne : ~ Selection.eq (Selection.mk 10 10 50 30 true)
                    (imageSelection (Scenario.viewerAt 1 (Point.mk 0 0)))).
  { intros [E _]. vm_compute in E. discriminate E. }
  assert (Heq : Selection.eq (Selection.mk 0 0 0 0 false)
                  (imageSelection (Scenario.viewerAt 1 (Point.mk 0 0)))).
  { repeat split; reflexivity. }
  destruct (selection_sync_reconciles
              (mkProps (Some (Selection.mk 10 10 50 30 true)) true [] None
                       true true)
              (Scenario.viewerAt 1 (Point.mk 0 0)))
    as [H1 _].
  destruct (selection_sync_reconciles Scenario.plainProps
              (Scenario.viewerAt 1 (Point.mk 0 0)))
    as [_ [H2 _]].
  destruct (selection_sync_reconciles
              (mkProps None true [] None true true)
              (setImageSelection (Selection.mk 10 10 50 30 true)
                 (Scenario.viewerAt 1 (Point.mk 0 0))))
    as [_ [_ [H3 _]]].
  destruct (selection_sync_reconciles
              (mkProps None true [] None true true)
              (Scenario.viewerAt 1 (Point.mk 0 0)))
    as [_ [_ [_ [H4 _]]]].
  split; [|split; [|split]].
  - exact (proj2 (H1 _ eq_refl Hne)).
  - exact (proj1 (H2 _ eq_refl Heq)).
  - exact (proj2 (H3 eq_refl eq_refl)).
  - exact (proj1 (H4 eq_refl eq_refl)).
Defined.

End Sync.

(** ** Moving shapes *)

Section Moves.

Import Konva.
Import ImageViewer.

(** C10. The drag-end handler of the visible selection sets its [x] and [y]
  from the dragged shape and nothing else of it: [width], [height] and
  [visible] (true) are the values from before the drag, in the internal
  selection and in the [onSelectionChange] payload alike; the payload has
  no [isNewSelection] field. Of the other state cells only the cursor is
  reset. *)
Theorem selection_drag_end_keeps_size (props : Props) (st : State)
  (e : DragEvent.t) :
  Selection.visible (imageSelection st) = true ->
  onSelectionChange props = true ->
  exists x y,
    fst (handleSelectionDragEnd props st e)
    = setImageSelection
        (Selection.mk x y (Selection.width (imageSelection st))
                      (Selection.height (imageSelection st))
                      (Selection.visible (imageSelection st)))
        (setCursor CursorDefault st)
    /\ snd (handleSelectionDragEnd props st e)
       = [OnSelectionChange
            (SelectionChange.mk x y (Selection.width (imageSelection st))
                                (Selection.height (imageSelection st))
                                (Selection.visible (imageSelection st))
                                None)]
    /\ x = (Rect.x (DragEvent.target e) - Point.x (position st)) / scale st
    /\ y = (Rect.y (DragEvent.target e) - Point.y (position st)) / scale st.
Proof.
  intros Hv Hc. unfold handleSelectionDragEnd, notifySelectionChange.
  rewrite Hc, Hv. cbn [fst snd].
  eexists. eexists. repeat split; reflexivity.
Qed.

Lemma selection_drag_end_keeps_size_witness :
  exists x y,
    fst (handleSelectionDragEnd Scenario.plainProps
           (setImageSelection (Selection.mk 10 10 50 30 true)
              (Scenario.viewerAt 2 (Point.mk 5 5)))
           (Scenario.dragOf true 45 25 100 60))
    = setImageSelection (Selection.mk x y 50 30 true)
        (setCursor CursorDefault
           (setImageSelection (Selection.mk 10 10 50 30 true)
              (Scenario.viewerAt 2 (Point.mk 5 5))))
    /\ snd (handleSelectionDragEnd Scenario.plainProps
              (setImageSelection (Selection.mk 10 10 50 30 true)
                 (Scenario.viewerAt 2 (Point.mk 5 5)))
              (Scenario.dragOf true 45 25 100 60))
       = [OnSelectionChange (SelectionChange.mk x y 50 30 true None)]
    /\ x == 20 /\ y == 10.
Proof.
  destruct (selection_drag_end_keeps_size Scenario.plainProps
              (setImageSelection (Selection.mk 10 10 50 30 true)
                 (Scenario.viewerAt 2 (Point.mk 5 5)))
              (Scenario.dragOf true 45 25 100 60)
              eq_refl eq_refl) as [x [y [H1 [H2 [Hx Hy]]]]].
  exists x, y. split; [exact H1|]. split; [exact H2|].
  rewrite Hx, Hy. split; reflexivity.
Defined.

(** C5. A drag attempted without Ctrl is stopped and still commits. The
  drag-start handlers test the Ctrl key and, without it, call [stopDrag]
  and do nothing else; the drag-end handlers that commit a move make no
  such test: for every state, props and dropped shape they do the same
  with and without Ctrl. So when the saved marker is dragged without Ctrl,
  its [dragstart] is answered by [stopDrag] and the [dragend] that ends the
  stopped drag calls [onMarkerMove] with the marker's geometry; likewise
  the drawn selection's [dragend] calls [onSelectionChange]. One call is
  made where none should be. With Ctrl held the drag is not stopped and
  commits once, the marker moved by the displacement of the shape. *)
Theorem plain_drag_still_commits :
  App.trace Scenario.loadedWithMarker Scenario.plainMarkerDrag
  = [StopDrag; OnMarkerMove "marker-1700000000000" 100 100 40 20]
  /\ App.trace Scenario.drawn Scenario.plainSelectionDrag
     = [StopDrag;
        OnSelectionChange (SelectionChange.mk 10 10 50 30 true None)]
  /\ (forall props st target markerId,
         handleMarkerDragEnd props st (DragEvent.mk false target) markerId
         = handleMarkerDragEnd props st (DragEvent.mk true target) markerId)
  /\ (forall props st target,
         handleSelectionDragEnd props st (DragEvent.mk false target)
         = handleSelectionDragEnd props st (DragEvent.mk true target))
  /\ (forall props st target markerId,
         handleMarkerDragStart props st (DragEvent.mk false target) markerId
         = (st, [StopDrag])
         /\ handleSelectionDragStart props st (DragEvent.mk false target)
            = (st, [StopDrag]))
  /\ App.trace Scenario.loadedWithMarker Scenario.ctrlMarkerDrag
     = [OnMarkerSelect (Some "marker-1700000000000"%string);
        OnMarkerMove "marker-1700000000000" 130 90 40 20]
  /\ ImageMarkerPage.markers
       (App.page (App.run Scenario.loadedWithMarker Scenario.ctrlMarkerDrag))
     = [Marker.mk "marker-1700000000000" "A" 130 90 40 20 None].
Proof.
  split; [vm_compute; reflexivity|].
  split; [vm_compute; reflexivity|].
  split; [reflexivity|].
  split; [reflexivity|].
  split; [intros; split; reflexivity|].
  split; vm_compute; reflexivity.
Qed.

End Moves.

(** ** Panning *)

Section Pan.

Import Konva.
Import ImageViewer.

(** X21. A pointer move while panning changes at most the viewport origin:
  the page's markers, selection and focus, and the viewer's selection,
  scale and every other cell are as before, and no call is made. The
  origin moves by [(movementX, movementY)] when the move is on the
  background, and stays when the target of the move is a shape. *)
Theorem pan_changes_only_origin (s : App.State) (e : MouseEvent.t) :
  isDragging (App.viewer s) = true ->
  hasImage (App.viewer s) = true ->
  App.page (App.step s (App.MouseMove e)) = App.page s
  /\ App.viewer (App.step s (App.MouseMove e))
     = setPosition
         (if onBackground e
          then Point.mk
                 (Point.x (position (App.viewer s)) + MouseEvent.movementX e)
                 (Point.y (position (App.viewer s)) + MouseEvent.movementY e)
          else position (App.viewer s))
         (App.viewer s)
  /\ ImageMarkerPage.markers (App.page (App.step s (App.MouseMove e)))
     = ImageMarkerPage.markers (App.page s)
  /\ imageSelection (App.viewer (App.step s (App.MouseMove e)))
     = imageSelection (App.viewer s)
  /\ snd (handleMouseMove (ImageMarkerPage.viewerProps (App.page s))
                          (App.viewer s) e) = [].
Proof.
  intros Hd Hi.
  assert (Hm : handleMouseMove (ImageMarkerPage.viewerProps (App.page s))
                 (App.viewer s) e
               = (setPosition
                    (if onBackground e
                     then Point.mk
                            (Point.x (position (App.viewer s))
                             + MouseEvent.movementX e)
                            (Point.y (position (App.viewer s))
                             + MouseEvent.movementY e)
                     else position (App.viewer s))
                    (App.viewer s), [])).
  { unfold handleMouseMove, onBackground. rewrite Hd, Hi.
    destruct (MouseEvent.getStage e);
      destruct (MouseEvent.className e =? "Rect")%string; cbn;
      destruct (App.viewer s); reflexivity. }
  unfold App.step. cbn [App.rendered App.handle]. rewrite Hi. cbn [negb].
  rewrite Hm. cbn [fold_left existsb App.page App.viewer snd].
  repeat split; destruct (App.viewer s); reflexivity.
Qed.

Lemma pan_changes_only_origin_witness :
  App.page
    (App.step (App.mk (App.page Scenario.loadedWithMarker)
                      (setIsDragging true
                         (App.viewer Scenario.loadedWithMarker)))
              (App.MouseMove (Scenario.mouseMovedBy 12 (-7))))
  = App.page Scenario.loadedWithMarker
  /\ position
       (App.viewer
          (App.step (App.mk (App.page Scenario.loadedWithMarker)
                            (setIsDragging true
                               (App.viewer Scenario.loadedWithMarker)))
                    (App.MouseMove (Scenario.mouseMovedBy 12 (-7)))))
     = Point.mk (0 + 12) (0 + -7).
Proof.
  destruct (pan_changes_only_origin
              (App.mk (App.page Scenario.loadedWithMarker)
                      (setIsDragging true
                         (App.viewer Scenario.loadedWithMarker)))
              (Scenario.mouseMovedBy 12 (-7)) eq_refl eq_refl)
    as [Hp [Hv _]].
  split; [exact Hp|]. rewrite Hv. reflexivity.
Defined.

(** C8. A pan that passes over a saved marker stalls. During a pan of
  [Scenario.loadedWithMarker] (Space held, press on the background at
  [(98, 117)], origin [(0, 0)]) a pointer move of [(12, -7)] brings the
  pointer to [(110, 110)], on the saved marker's [Rect]. The move handler
  returns at once for a target of class ["Rect"]: the origin stays
  [(0, 0)] and the whole state is as before, where the origin should be
  [(12, -7)], as it is after the same move over the background. Markers
  and selection are unchanged either way. *)
Theorem pan_over_marker_stalls :
  isDragging (App.viewer Scenario.panning) = true
  /\ position (App.viewer Scenario.panning) = Point.mk 0 0
  /\ overMarker Scenario.panning (Point.mk 110 110) = true
  /\ App.step Scenario.panning
       (App.MouseMove (Scenario.movedOverShape 110 110 12 (-7)))
     = Scenario.panning
  /\ position
       (App.viewer
          (App.step Scenario.panning
             (App.MouseMove (Scenario.movedOverBackground 110 110 12 (-7)))))
     = Point.mk 12 (-7)
  /\ App.page
       (App.step Scenario.panning
          (App.MouseMove (Scenario.movedOverBackground 110 110 12 (-7))))
     = App.page Scenario.panning
  /\ imageSelection
       (App.viewer
          (App.step Scenario.panning
             (App.MouseMove (Scenario.movedOverBackground 110 110 12 (-7)))))
     = imageSelection (App.viewer Scenario.panning).
Proof. repeat split; vm_compute; reflexivity. Qed.

End Pan.

(** ** Drawing a selection *)

Section Draw.

Import Konva.
Import ImageViewer.

(** X20. While a selection is being drawn and no pan is going on, a
  pointer move with Alt held whose target is not a shape (its class name
  is not ["Rect"]) and whose pointer position resolves sets the selection
  to the image-space bounding box of the press point and the pointer:
  [x] and [y] the minima, [width] and [height] the absolute differences,
  visible; and calls [onSelectionChange] with it and
  [isNewSelection = true]. A pointer move whose target is a shape changes
  nothing and calls nothing. At scale 1 and origin [(0, 0)], pressing at
  [(10, 10)] and moving to [(60, 40)] over the background with Alt held
  calls [onSelectionChange] with [{x:10, y:10, width:50, height:30}],
  visible, [isNewSelection = true]. *)
Theorem draw_move_bounding_box :
  (forall props st e pointerPos,
      hasImage st = true -> isDrawing st = true -> isDragging st = false ->
      MouseEvent.altKey e = true ->
      (MouseEvent.className e =? "Rect")%string = false ->
      MouseEvent.getStage e = Some (Stage.mk (Some pointerPos)) ->
      onSelectionChange props = true ->
      exists box,
        handleMouseMove props st e
        = (setImageSelection box st,
           [OnSelectionChange
              (SelectionChange.mk (Selection.x box) (Selection.y box)
                 (Selection.width box) (Selection.height box) true
                 (Some true))])
        /\ Selection.x box
           = Qmin (Point.x (startPoint st))
                  ((Point.x pointerPos - Point.x (position st)) / scale st)
        /\ Selection.y box
           = Qmin (Point.y (startPoint st))
                  ((Point.y pointerPos - Point.y (position st)) / scale st)
        /\ Selection.width box
           = Qabs ((Point.x pointerPos - Point.x (position st)) / scale st
                   - Point.x (startPoint st))
        /\ Selection.height box
           = Qabs ((Point.y pointerPos - Point.y (position st)) / scale st
                   - Point.y (startPoint st))
        /\ Selection.visible box = true
        /\ 0 <= Selection.width box /\ 0 <= Selection.height box)
  /\ (forall props st e,
         (MouseEvent.className e =? "Rect")%string = true ->
         handleMouseMove props st e = (st, []))
  /\ snd (App.handle
            (ImageMarkerPage.viewerProps
               (App.page (App.run Scenario.loaded
                            [App.MouseDown (Scenario.mouseAt 10 10 true)])))
            (App.viewer (App.run Scenario.loaded
                           [App.MouseDown (Scenario.mouseAt 10 10 true)]))
            (App.MouseMove (Scenario.mouseAt 60 40 true)))
     = [OnSelectionChange (SelectionChange.mk 10 10 50 30 true (Some true))]
  /\ imageSelection
       (App.viewer (App.run Scenario.loaded
                      [App.MouseDown (Scenario.mouseAt 10 10 true);
                       App.MouseMove (Scenario.mouseAt 60 40 true)]))
     = Selection.mk 10 10 50 30 true.
Proof.
  split; [|split; [|split; reflexivity]].
  2: { intros props st e Hcls. unfold handleMouseMove. rewrite Hcls.
       destruct (MouseEvent.getStage e); reflexivity. }
  intros props st e pointerPos Hi Hdraw Hpan Halt Hcls Hstage Hcb.
  unfold handleMouseMove, notifySelectionChange, stageToImageCoords,
    Math.min, Math.abs.
  rewrite Hstage, Hcls, Hpan, Hdraw, Hi, Halt, Hcb.
  cbn [andb orb negb Stage.getRelativePointerPosition Point.x Point.y].
  eexists. split; [reflexivity|].
  cbn [Selection.x Selection.y Selection.width Selection.height
         Selection.visible].
  repeat split; try reflexivity; apply Qabs_nonneg.
Qed.

Lemma draw_move_bounding_box_witness :
  exists box,
    handleMouseMove Scenario.plainProps
      (App.viewer (App.run Scenario.loaded
                     [App.MouseDown (Scenario.mouseAt 10 10 true)]))
      (Scenario.mouseAt 5 40 true)
    = (setImageSelection box
         (App.viewer (App.run Scenario.loaded
                        [App.MouseDown (Scenario.mouseAt 10 10 true)])),
       [OnSelectionChange
          (SelectionChange.mk (Selection.x box) (Selection.y box)
             (Selection.width box) (Selection.height box) true (Some true))])
    /\ Selection.eq box (Selection.mk 5 10 5 30 true).
Proof.
  destruct (proj1 draw_move_bounding_box Scenario.plainProps
              (App.viewer (App.run Scenario.loaded
                             [App.MouseDown (Scenario.mouseAt 10 10 true)]))
              (Scenario.mouseAt 5 40 true) (Point.mk 5 40)
              eq_refl eq_refl eq_refl eq_refl eq_refl eq_refl eq_refl)
    as [box [H [Hx [Hy [Hw [Hh [Hv _]]]]]]].
  exists box. split; [exact H|].
  unfold Selection.eq. rewrite Hx, Hy, Hw, Hh, Hv.
  repeat split; reflexivity.
Defined.

(** C4. A draw that passes over a saved marker stalls. In
  [Scenario.drawing] a selection is being drawn from [(10, 10)] with Alt
  held and stands at [{x:10, y:10, width:50, height:30}]. The next
  pointer move brings the pointer to [(110, 110)], on the saved marker's
  [Rect]. The move handler returns at once for a target of class ["Rect"]:
  the selection is not recomputed and [onSelectionChange] is not called,
  where the bounding box [{x:10, y:10, width:100, height:100}] should be
  set and notified, as it is for the same move over the background. The
  gesture stays open. *)
Theorem draw_move_over_marker_ignored :
  isDrawing (App.viewer Scenario.drawing) = true
  /\ imageSelection (App.viewer Scenario.drawing)
     = Selection.mk 10 10 50 30 true
  /\ overMarker Scenario.drawing (Point.mk 110 110) = true
  /\ App.calls Scenario.drawing
       (App.MouseMove (Scenario.mouseOverShape 110 110 true)) = []
  /\ App.step Scenario.drawing
       (App.MouseMove (Scenario.mouseOverShape 110 110 true))
     = Scenario.drawing
  /\ App.calls Scenario.drawing
       (App.MouseMove (Scenario.mouseAt 110 110 true))
     = [OnSelectionChange
          (SelectionChange.mk 10 10 100 100 true (Some true))]
  /\ imageSelection
       (App.viewer
          (App.step Scenario.drawing
             (App.MouseMove (Scenario.mouseAt 110 110 true))))
     = Selection.mk 10 10 100 100 true.
Proof. repeat split; vm_compute; reflexivity. Qed.

End Draw.

(** ** Creating markers *)

Section Markers.

Import ImageMarkerPage.

Lemma numberToString_inj (a b : Z) :
  numberToString a = numberToString b -> a = b.
Proof.
  unfold numberToString. intro H.
  apply DecimalZ.to_int_inj.
  apply (f_equal NilEmpty.int_of_string) in H.
  rewrite !NilEmpty.isi in H. congruence.
Qed.

Lemma markerId_inj (a b : Z) :
  ("marker-" ++ numberToString a)%string
  = ("marker-" ++ numberToString b)%string -> a = b.
Proof.
  cbn [String.append]. intro H. apply numberToString_inj. congruence.
Qed.

Lemma addMarkers_ids (calls : list (Z * NewMarker.t)) :
  forall ps,
    snd (addMarkers calls ps)
    = map (fun now => ("marker-" ++ numberToString now)%string)
          (map fst calls).
Proof.
  induction calls as [|[now marker] rest IH]; intro ps; cbn.
  - reflexivity.
  - specialize (IH (setMarkers
                      (markers ps
                       ++ [Marker.mk ("marker-" ++ numberToString now)
                             (NewMarker.name marker) (NewMarker.x marker)
                             (NewMarker.y marker) (NewMarker.width marker)
                             (NewMarker.height marker)
                             (NewMarker.ocrText marker)]) ps)).
    cbn in IH.
    destruct (addMarkers rest _) as [ps2 ids]. cbn in *. now rewrite IH.
Qed.

Lemma addMarkers_markers (calls : list (Z * NewMarker.t)) :
  forall ps,
    List.length (markers (fst (addMarkers calls ps)))
    = (List.length (markers ps) + List.length calls)%nat.
Proof.
  induction calls as [|[now marker] rest IH]; intro ps; cbn.
  - lia.
  - specialize (IH (setMarkers
                      (markers ps
                       ++ [Marker.mk ("marker-" ++ numberToString now)
                             (NewMarker.name marker) (NewMarker.x marker)
                             (NewMarker.y marker) (NewMarker.width marker)
                             (NewMarker.height marker)
                             (NewMarker.ocrText marker)]) ps)).
    cbn in IH.
    destruct (addMarkers rest _) as [ps2 ids]. cbn in *.
    rewrite IH, length_app. cbn. lia.
Qed.

(** C9, amended. Every call of [handleAddMarker] appends exactly one marker
  to the collection, with the given fields, and returns its id, which is
  ["marker-"] followed by the clock reading of the call; nothing else of the
  page changes. The ids returned by a run of calls are pairwise distinct
  exactly when the clock readings of the calls are pairwise distinct. *)
Theorem addMarker_appends_timestamp_id :
  (forall now marker ps,
      fst (handleAddMarker now marker ps)
      = setMarkers
          (markers ps
           ++ [Marker.mk (snd (handleAddMarker now marker ps))
                 (NewMarker.name marker) (NewMarker.x marker)
                 (NewMarker.y marker) (NewMarker.width marker)
                 (NewMarker.height marker) (NewMarker.ocrText marker)]) ps
      /\ snd (handleAddMarker now marker ps)
         = ("marker-" ++ numberToString now)%string)
  /\ (forall calls ps,
         List.length (markers (fst (addMarkers calls ps)))
         = (List.length (markers ps) + List.length calls)%nat)
  /\ (forall calls ps,
         NoDup (snd (addMarkers calls ps)) <-> NoDup (map fst calls)).
Proof.
  split; [|split].
  - intros. split; reflexivity.
  - intros. apply addMarkers_markers.
  - intros calls ps. rewrite addMarkers_ids. split.
    + apply NoDup_map_inv.
    + apply Injective_map_NoDup.
      intros a b. apply markerId_inj.
Qed.

Lemma addMarker_appends_timestamp_id_witness :
  NoDup (snd (addMarkers [(1700000000000%Z, Scenario.markerA);
                          (1700000004321%Z, Scenario.markerA)]
                         initialState)).
Proof.
  apply (proj2 (proj2 addMarker_appends_timestamp_id)).
  cbn. constructor.
  - intros [E|[]]. discriminate E.
  - constructor; [intros []|constructor].
Defined.

(** C9 as stated fails when two calls read the same clock value: both
  return the same id, and the collection then holds two markers with
  it. *)
Lemma addMarker_same_clock_same_id :
  snd (addMarkers [(1700000000000%Z, Scenario.markerA);
                   (1700000000000%Z,
                    NewMarker.mk "B" 300 200 10 10 None)]
                  initialState)
  = ["marker-1700000000000"%string; "marker-1700000000000"%string]
  /\ map Marker.id
       (markers
          (fst (addMarkers [(1700000000000%Z, Scenario.markerA);
                            (1700000000000%Z,
                             NewMarker.mk "B" 300 200 10 10 None)]
                           initialState)))
     = ["marker-1700000000000"%string; "marker-1700000000000"%string]
  /\ ~ NoDup (snd (addMarkers [(1700000000000%Z, Scenario.markerA);
                               (1700000000000%Z,
                                NewMarker.mk "B" 300 200 10 10 None)]
                              initialState)).
Proof.
  split; [reflexivity|]. split; [reflexivity|].
  intro H. inversion H as [|? ? Hnot _]. apply Hnot. left. reflexivity.
Qed.

Lemma setMarkers_same (ps : State) : setMarkers (markers ps) ps = ps.
Proof. destruct ps; reflexivity. Qed.

Lemma map_unmatched (id : string) (data : PartialMarker.t)
  (ms : list Marker.t) :
  App.hasMarker id ms = false ->
  map (fun marker =>
         if (Marker.id marker =? id)%string
         then PartialMarker.merge marker data
         else marker) ms = ms.
Proof.
  induction ms as [|m ms IH]; cbn; intro H; [reflexivity|].
  apply orb_false_iff in H as [Hm Hrest].
  rewrite Hm, (IH Hrest). reflexivity.
Qed.

(** X4. Updating a marker whose id is not in the collection changes
  nothing. Deleting a marker removes every marker with that id and keeps
  the others in order, and clears the focus when the deleted marker was
  the focused one, leaving it otherwise. *)
Theorem update_absent_delete_focused :
  (forall id data ps,
      App.hasMarker id (markers ps) = false ->
      handleUpdateMarker id data ps = ps)
  /\ (forall id ps,
         markers (handleDeleteMarker id ps)
         = filter (fun marker => negb (Marker.id marker =? id)%string)
                  (markers ps)
         /\ App.hasMarker id (markers (handleDeleteMarker id ps)) = false
         /\ selection (handleDeleteMarker id ps) = selection ps)
  /\ (forall id ps,
         selectedMarkerId ps = Some id ->
         selectedMarkerId (handleDeleteMarker id ps) = None)
  /\ (forall id ps,
         selectedMarkerId ps <> Some id ->
         selectedMarkerId (handleDeleteMarker id ps) = selectedMarkerId ps).
Proof.
  split; [|split; [|split]].
  - intros id data ps H. unfold handleUpdateMarker.
    rewrite (map_unmatched id data _ H). apply setMarkers_same.
  - intros id ps.
    assert (Hm : markers (handleDeleteMarker id ps)
                 = filter (fun marker => negb (Marker.id marker =? id)%string)
                          (markers ps)).
    { unfold handleDeleteMarker.
      destruct (selectedMarkerId ps) as [sel|];
        [destruct (sel =? id)%string|]; reflexivity. }
    split; [exact Hm|]. split.
    + rewrite Hm. clear Hm. unfold App.hasMarker.
      induction (markers ps) as [|m ms IH]; cbn; [reflexivity|].
      destruct (Marker.id m =? id)%string eqn:E; cbn; [exact IH|].
      rewrite E. exact IH.
    + unfold handleDeleteMarker.
      destruct (selectedMarkerId ps) as [sel|];
        [destruct (sel =? id)%string|]; reflexivity.
  - intros id ps H. unfold handleDeleteMarker. rewrite H.
    rewrite String.eqb_refl. reflexivity.
  - intros id ps H. unfold handleDeleteMarker.
    destruct (selectedMarkerId ps) as [sel|] eqn:Hsel.
    + destruct (sel =? id)%string eqn:E; [|cbn; exact Hsel].
      apply String.eqb_eq in E. subst. congruence.
    + cbn. exact Hsel.
Qed.

Lemma update_absent_delete_focused_witness :
  handleUpdateMarker "marker-7"
    (PartialMarker.mk None None (Some 1) (Some 2) None None None)
    (App.page Scenario.loadedWithMarker)
  = App.page Scenario.loadedWithMarker
  /\ selectedMarkerId
       (handleDeleteMarker "marker-1700000000000"
          (setSelectedMarkerId (Some "marker-1700000000000"%string)
             (App.page Scenario.loadedWithMarker))) = None
  /\ selectedMarkerId
       (handleDeleteMarker "marker-7"
          (setSelectedMarkerId (Some "marker-1700000000000"%string)
             (App.page Scenario.loadedWithMarker)))
     = Some "marker-1700000000000"%string.
Proof.
  split; [|split].
  - apply (proj1 update_absent_delete_focused). reflexivity.
  - apply (proj1 (proj2 (proj2 update_absent_delete_focused))). reflexivity.
  - apply (proj2 (proj2 (proj2 update_absent_delete_focused))
             "marker-7"%string
             (setSelectedMarkerId (Some "marker-1700000000000"%string)
                (App.page Scenario.loadedWithMarker))).
    discriminate.
Defined.

End Markers.

(** ** Selection and marker focus *)

Section Focus.

Import Konva.
Import ImageViewer.

Ltac handlers :=
  unfold handleImageUpload, handleMouseDown, handleMouseMove, handleMouseUp,
    handleWheel, handleMarkerClick, handleMarkerDragStart,
    handleMarkerDragMove, handleMarkerDragEnd, handleMarkerTransformEnd,
    handleSelectionDragStart, handleSelectionDragMove,
    handleSelectionDragEnd, handleSelectionTransformEnd, handleKeyDown,
    handleKeyUp, notifySelectionChange.

Lemma sync_keeps_exclusive (p : ImageMarkerPage.State) (v : State) :
  App.bothActive (App.mk p v) = false ->
  App.bothActive
    (App.mk p (fst (syncSelectionProp (ImageMarkerPage.viewerProps p) v)))
  = false.
Proof.
  unfold App.bothActive, App.selectionVisible, App.markerFocused.
  cbn [App.page App.viewer].
  intro H. unfold syncSelectionProp.
  cbn [selection ImageMarkerPage.viewerProps].
  branches;
    cbn [fst imageSelection setImageSelection Selection.visible
           SelectionChange.selection]; auto.
  all: destruct (SelectionChange.visible (ImageMarkerPage.selection p));
    cbn in *; auto.
  all: rewrite ?orb_true_r in H; auto; try discriminate.
Qed.

Lemma handle_keeps_exclusive (p : ImageMarkerPage.State) (v : State)
  (ev : App.Event) :
  App.bothActive (App.mk p v) = false ->
  focusingDrag ev = false ->
  App.rendered (App.mk p v) ev = true ->
  App.bothActive
    (App.mk (fold_left ImageMarkerPage.receive
               (snd (App.handle (ImageMarkerPage.viewerProps p) v ev)) p)
            (fst (App.handle (ImageMarkerPage.viewerProps p) v ev)))
  = false.
Proof.
  intros Hinv Hev Hr.
  destruct (App.handle (ImageMarkerPage.viewerProps p) v ev)
    as [v1 calls] eqn:Hh.
  cbn [fst snd].
  destruct ev; cbn [App.handle] in Hh; cbn in Hev, Hr; revert Hh; handlers;
    cbn [ImageMarkerPage.viewerProps onSelectionChange onMarkerSelect
           onMarkerMove selectedMarkerId];
    branches; intros [= <- <-];
    cbn [fold_left ImageMarkerPage.receive app];
    unfold App.bothActive, App.selectionVisible, App.markerFocused in *;
    cbn in *;
    try exact Hinv; try reflexivity; try discriminate.
  - rewrite Hev in *. discriminate.
  - apply andb_true_iff in Hr as [_ Hvis]. rewrite Hvis in Hinv. exact Hinv.
  - apply andb_true_iff in Hr as [_ Hvis]. rewrite Hvis in Hinv. exact Hinv.
Qed.

Lemma step_keeps_exclusive (s : App.State) (ev : App.Event) :
  App.bothActive s = false -> focusingDrag ev = false ->
  App.bothActive (App.step s ev) = false.
Proof.
  intros Hinv Hev. unfold App.step.
  destruct (negb (App.rendered s ev)) eqn:Hr; [exact Hinv|].
  apply negb_false_iff in Hr. destruct s as [p v].
  cbn [App.page App.viewer].
  pose proof (handle_keeps_exclusive p v ev Hinv Hev Hr) as H.
  destruct (App.handle (ImageMarkerPage.viewerProps p) v ev) as [v1 calls].
  cbn [fst snd] in H.
  destruct (existsb isOnSelectionChange calls); [|exact H].
  apply sync_keeps_exclusive. exact H.
Qed.

(** X1. From a state where the selection is not visible while a marker is
  focused, every run of events without a Ctrl-held marker drag start ends
  in such a state: drawing clears the focus, a click on a marker hides the
  selection, and moving or resizing the selection needs it visible, hence
  no marker focused. *)
Theorem run_keeps_exclusive (events : list App.Event) :
  forall s,
    App.bothActive s = false ->
    forallb (fun ev => negb (focusingDrag ev)) events = true ->
    App.bothActive (App.run s events) = false.
Proof.
  induction events as [|ev events IH]; intros s Hinv Hall; cbn.
  - exact Hinv.
  - cbn in Hall. apply andb_true_iff in Hall as [Hev Hrest].
    apply negb_true_iff in Hev.
    apply IH; [apply step_keeps_exclusive; assumption | exact Hrest].
Qed.

Lemma run_keeps_exclusive_witness :
  App.bothActive
    (App.run Scenario.loadedWithMarker
       (Scenario.drawEvents ++ [App.MarkerClick "marker-1700000000000"]))
  = false.
Proof.
  apply run_keeps_exclusive; reflexivity.
Defined.

(** X2. A click on a rendered marker hides the selection, with zeroed
  geometry, in the viewer and in the page, and then toggles the focus: the
  viewer calls [onSelectionChange] with the hidden selection and then
  [onMarkerSelect], with [null] when the marker was the focused one and
  with its id otherwise. The markers are untouched. *)
Theorem marker_click_toggles_focus (s : App.State) (id : string) :
  App.rendered s (App.MarkerClick id) = true ->
  snd (handleMarkerClick (ImageMarkerPage.viewerProps (App.page s))
                         (App.viewer s) id)
  = [OnSelectionChange (SelectionChange.mk 0 0 0 0 false None);
     OnMarkerSelect
       (if notSelected (ImageMarkerPage.viewerProps (App.page s)) id
        then Some id else None)]
  /\ imageSelection (App.viewer (App.step s (App.MarkerClick id)))
     = Selection.mk 0 0 0 0 false
  /\ ImageMarkerPage.selection (App.page (App.step s (App.MarkerClick id)))
     = SelectionChange.mk 0 0 0 0 false None
  /\ ImageMarkerPage.selectedMarkerId
       (App.page (App.step s (App.MarkerClick id)))
     = (if notSelected (ImageMarkerPage.viewerProps (App.page s)) id
        then Some id else None)
  /\ ImageMarkerPage.markers (App.page (App.step s (App.MarkerClick id)))
     = ImageMarkerPage.markers (App.page s).
Proof.
  intro Hr. unfold App.step. rewrite Hr. cbn [negb App.handle].
  unfold handleMarkerClick, notifySelectionChange, notSelected.
  cbn [ImageMarkerPage.viewerProps onSelectionChange onMarkerSelect
         selectedMarkerId].
  destruct (ImageMarkerPage.selectedMarkerId (App.page s)) as [sel|] eqn:Hsel.
  - destruct (sel =? id)%string eqn:E; cbn; repeat split; reflexivity.
  - cbn. repeat split; reflexivity.
Qed.

Lemma marker_click_toggles_focus_witness :
  ImageMarkerPage.selectedMarkerId
    (App.page (App.step
                 (App.run Scenario.loadedWithMarker Scenario.drawEvents)
                 (App.MarkerClick "marker-1700000000000")))
  = Some "marker-1700000000000"%string
  /\ imageSelection
       (App.viewer (App.step
                      (App.run Scenario.loadedWithMarker Scenario.drawEvents)
                      (App.MarkerClick "marker-1700000000000")))
     = Selection.mk 0 0 0 0 false.
Proof.
  destruct (marker_click_toggles_focus
              (App.run Scenario.loadedWithMarker Scenario.drawEvents)
              "marker-1700000000000" eq_refl) as [_ [Hv [_ [Hf _]]]].
  split; [exact Hf | exact Hv].
Defined.

(** X3. A press on the background with the primary button and Alt held,
  space not held, starts a drawing: the selection becomes the zero-size
  visible rectangle at the press point in image coordinates, the press
  point is remembered, [onSelectionChange] is called with it and
  [isNewSelection = true], and the page clears the marker focus. *)
Theorem draw_start_clears_focus (s : App.State) (e : MouseEvent.t)
  (pointerPos : Point.t) :
  hasImage (App.viewer s) = true ->
  spacePressed (App.viewer s) = false ->
  (MouseEvent.className e =? "Rect")%string = false ->
  MouseEvent.getStage e = Some (Stage.mk (Some pointerPos)) ->
  MouseEvent.button e = 0%Z ->
  MouseEvent.altKey e = true ->
  handleMouseDown (ImageMarkerPage.viewerProps (App.page s)) (App.viewer s) e
  = (setImageSelection
       (Selection.mk
          ((Point.x pointerPos - Point.x (position (App.viewer s)))
           / scale (App.viewer s))
          ((Point.y pointerPos - Point.y (position (App.viewer s)))
           / scale (App.viewer s)) 0 0 true)
       (setStartPoint
          (Point.mk
             ((Point.x pointerPos - Point.x (position (App.viewer s)))
              / scale (App.viewer s))
             ((Point.y pointerPos - Point.y (position (App.viewer s)))
              / scale (App.viewer s)))
          (setIsDrawing true (App.viewer s))),
     [OnSelectionChange
        (SelectionChange.mk
           ((Point.x pointerPos - Point.x (position (App.viewer s)))
            / scale (App.viewer s))
           ((Point.y pointerPos - Point.y (position (App.viewer s)))
            / scale (App.viewer s)) 0 0 true (Some true))])
  /\ ImageMarkerPage.selectedMarkerId
       (App.page (App.step s (App.MouseDown e))) = None
  /\ App.selectionVisible (App.step s (App.MouseDown e)) = true.
Proof.
  intros Hi Hsp Hcls Hstage Hb Halt.
  assert (Hh : handleMouseDown (ImageMarkerPage.viewerProps (App.page s))
                 (App.viewer s) e
               = (setImageSelection
                    (Selection.mk
                       ((Point.x pointerPos
                         - Point.x (position (App.viewer s)))
                        / scale (App.viewer s))
                       ((Point.y pointerPos
                         - Point.y (position (App.viewer s)))
                        / scale (App.viewer s)) 0 0 true)
                    (setStartPoint
                       (Point.mk
                          ((Point.x pointerPos
                            - Point.x (position (App.viewer s)))
                           / scale (App.viewer s))
                          ((Point.y pointerPos
                            - Point.y (position (App.viewer s)))
                           / scale (App.viewer s)))
                       (setIsDrawing true (App.viewer s))),
                  [OnSelectionChange
                     (SelectionChange.mk
                        ((Point.x pointerPos
                          - Point.x (position (App.viewer s)))
                         / scale (App.viewer s))
                        ((Point.y pointerPos
                          - Point.y (position (App.viewer s)))
                         / scale (App.viewer s)) 0 0 true (Some true))])).
  { unfold handleMouseDown, notifySelectionChange, stageToImageCoords.
    rewrite Hi, Hcls, Hstage, Hsp, Hb, Halt. reflexivity. }
  split; [exact Hh|].
  unfold App.step. cbn [App.rendered App.handle]. rewrite Hi. cbn [negb].
  rewrite Hh.
  cbn [fold_left existsb isOnSelectionChange orb ImageMarkerPage.receive
         App.page App.viewer].
  unfold ImageMarkerPage.handleSelectionChange.
  cbn [SelectionChange.visible SelectionChange.isNew
         SelectionChange.isNewSelection andb].
  split; [reflexivity|].
  unfold App.selectionVisible. cbn [App.page].
  cbn [ImageMarkerPage.selection ImageMarkerPage.setSelectedMarkerId
         ImageMarkerPage.setSelection SelectionChange.visible].
  apply orb_true_r.
Qed.

Lemma draw_start_clears_focus_witness :
  ImageMarkerPage.selectedMarkerId
    (App.page
       (App.step
          (App.step Scenario.loadedWithMarker
                    (App.MarkerClick "marker-1700000000000"))
          (App.MouseDown (Scenario.mouseAt 10 10 true)))) = None
  /\ ImageMarkerPage.selectedMarkerId
       (App.page (App.step Scenario.loadedWithMarker
                           (App.MarkerClick "marker-1700000000000")))
     = Some "marker-1700000000000"%string.
Proof.
  split; [|reflexivity].
  apply (draw_start_clears_focus
           (App.step Scenario.loadedWithMarker
                     (App.MarkerClick "marker-1700000000000"))
           (Scenario.mouseAt 10 10 true) (Point.mk 10 10));
    reflexivity.
Defined.

(** C1 on the code. With a marker saved and a selection drawn (visible, no
  marker focused), starting a Ctrl-held drag of the marker focuses it and
  leaves the selection visible, in the viewer and in the page: both are
  active at once. A click on the same marker from the same state hides the
  selection before focusing the marker. *)
Theorem marker_drag_start_keeps_selection_visible :
  App.bothActive (App.run Scenario.loadedWithMarker Scenario.drawEvents)
  = false
  /\ App.selectionVisible
       (App.run Scenario.loadedWithMarker Scenario.drawEvents) = true
  /\ App.bothActive
       (App.run Scenario.loadedWithMarker
          (Scenario.drawEvents ++ [Scenario.ctrlDragStart])) = true
  /\ ImageMarkerPage.selectedMarkerId
       (App.page (App.run Scenario.loadedWithMarker
                    (Scenario.drawEvents ++ [Scenario.ctrlDragStart])))
     = Some "marker-1700000000000"%string
  /\ imageSelection
       (App.viewer (App.run Scenario.loadedWithMarker
                      (Scenario.drawEvents ++ [Scenario.ctrlDragStart])))
     = Selection.mk 10 10 50 30 true
  /\ SelectionChange.visible
       (ImageMarkerPage.selection
          (App.page (App.run Scenario.loadedWithMarker
                       (Scenario.drawEvents ++ [Scenario.ctrlDragStart]))))
     = true
  /\ App.bothActive
       (App.run Scenario.loadedWithMarker
          (Scenario.drawEvents
           ++ [App.MarkerClick "marker-1700000000000"])) = false.
Proof.
  repeat split; reflexivity.
Qed.

End Focus.

(** ** Markers under the viewer's events *)

Section MarkerIdentity.

Import Konva.
Import ImageViewer.

Lemma merge_geometry_keeps_identity (m : Marker.t) (x y w h : number) :
  Marker.id (PartialMarker.merge m
               (PartialMarker.mk None None (Some x) (Some y) (Some w)
                                 (Some h) None)) = Marker.id m
  /\ Marker.name (PartialMarker.merge m
                    (PartialMarker.mk None None (Some x) (Some y) (Some w)
                                      (Some h) None)) = Marker.name m
  /\ Marker.ocrText (PartialMarker.merge m
                       (PartialMarker.mk None None (Some x) (Some y) (Some w)
                                         (Some h) None)) = Marker.ocrText m.
Proof. repeat split; reflexivity. Qed.

Lemma receive_keeps_identity (ps : ImageMarkerPage.State) (c : Call) :
  map Marker.id (ImageMarkerPage.markers (ImageMarkerPage.receive ps c))
  = map Marker.id (ImageMarkerPage.markers ps)
  /\ map Marker.name (ImageMarkerPage.markers (ImageMarkerPage.receive ps c))
     = map Marker.name (ImageMarkerPage.markers ps)
  /\ map Marker.ocrText
       (ImageMarkerPage.markers (ImageMarkerPage.receive ps c))
     = map Marker.ocrText (ImageMarkerPage.markers ps).
Proof.
  destruct c as [sc|id|id x y w h|]; cbn [ImageMarkerPage.receive].
  - unfold ImageMarkerPage.handleSelectionChange.
    destruct (SelectionChange.visible sc && SelectionChange.isNew sc);
      repeat split; reflexivity.
  - repeat split; reflexivity.
  - unfold ImageMarkerPage.handleMarkerMove,
      ImageMarkerPage.handleUpdateMarker.
    cbn [ImageMarkerPage.markers ImageMarkerPage.setMarkers].
    rewrite !map_map.
    repeat split; apply map_ext; intro m;
      destruct (Marker.id m =? id)%string; reflexivity.
  - repeat split; reflexivity.
Qed.

Lemma receive_all_keeps_identity (calls : list Call) :
  forall ps,
    map Marker.id
        (ImageMarkerPage.markers (fold_left ImageMarkerPage.receive calls ps))
    = map Marker.id (ImageMarkerPage.markers ps)
    /\ map Marker.name
         (ImageMarkerPage.markers
            (fold_left ImageMarkerPage.receive calls ps))
       = map Marker.name (ImageMarkerPage.markers ps)
    /\ map Marker.ocrText
         (ImageMarkerPage.markers
            (fold_left ImageMarkerPage.receive calls ps))
       = map Marker.ocrText (ImageMarkerPage.markers ps).
Proof.
  induction calls as [|c calls IH]; intro ps; cbn [fold_left].
  - repeat split; reflexivity.
  - destruct (IH (ImageMarkerPage.receive ps c)) as [H1 [H2 H3]].
    destruct (receive_keeps_identity ps c) as [K1 [K2 K3]].
    repeat split; congruence.
Qed.

Lemma step_keeps_identity (s : App.State) (ev : App.Event) :
  map Marker.id (ImageMarkerPage.markers (App.page (App.step s ev)))
  = map Marker.id (ImageMarkerPage.markers (App.page s))
  /\ map Marker.name (ImageMarkerPage.markers (App.page (App.step s ev)))
     = map Marker.name (ImageMarkerPage.markers (App.page s))
  /\ map Marker.ocrText (ImageMarkerPage.markers (App.page (App.step s ev)))
     = map Marker.ocrText (ImageMarkerPage.markers (App.page s)).
Proof.
  unfold App.step. destruct (negb (App.rendered s ev)).
  - repeat split; reflexivity.
  - destruct (App.handle _ _ ev) as [v1 calls]. cbn [App.page].
    apply receive_all_keeps_identity.
Qed.

Lemma calls_without_move (calls : list Call) :
  existsb isOnMarkerMove calls = false ->
  forall ps,
    ImageMarkerPage.markers (fold_left ImageMarkerPage.receive calls ps)
    = ImageMarkerPage.markers ps.
Proof.
  induction calls as [|c calls IH]; intros H ps; cbn [fold_left].
  - reflexivity.
  - cbn in H. apply orb_false_iff in H as [Hc Hrest].
    rewrite (IH Hrest).
    destruct c as [sc| | |]; try discriminate;
      cbn [ImageMarkerPage.receive]; try reflexivity.
    unfold ImageMarkerPage.handleSelectionChange.
    destruct (SelectionChange.visible sc && SelectionChange.isNew sc);
      reflexivity.
Qed.

Lemma handle_moves_only_on_commit (props : Props) (st : State)
  (ev : App.Event) :
  commitsMarker ev = false ->
  existsb isOnMarkerMove (snd (App.handle props st ev)) = false.
Proof.
  intro H. destruct ev; cbn in H; try discriminate; cbn [App.handle];
    unfold handleImageUpload, handleMouseDown, handleMouseMove,
      handleMouseUp, handleWheel, handleMarkerClick, handleMarkerDragStart,
      handleMarkerDragMove, handleSelectionDragStart,
      handleSelectionDragMove, handleSelectionDragEnd,
      handleSelectionTransformEnd, handleKeyDown, handleKeyUp,
      notifySelectionChange;
    branches; reflexivity.
Qed.

Lemma update_keeps_other_ids (id : string) (data : PartialMarker.t)
  (ms : list Marker.t) :
  Forall2 (fun before after =>
             Marker.id before <> id -> after = before)
          ms
          (map (fun marker =>
                  if (Marker.id marker =? id)%string
                  then PartialMarker.merge marker data
                  else marker) ms).
Proof.
  induction ms as [|m ms IH]; cbn; constructor; [|exact IH].
  intro Hne. destruct (Marker.id m =? id)%string eqn:E; [|reflexivity].
  apply String.eqb_eq in E. contradiction.
Qed.

(** X5. The viewer never adds, removes, reorders, renames or re-identifies
  a marker: along every run of its events the ids, names and OCR texts of
  the collection, in order, stay what they were. Only a marker's own drag
  end or transform end changes the collection at all, and then only the
  markers with the id of the dragged one. *)
Theorem viewer_events_keep_marker_identity :
  (forall events s,
      map Marker.id
          (ImageMarkerPage.markers (App.page (App.run s events)))
      = map Marker.id (ImageMarkerPage.markers (App.page s))
      /\ map Marker.name
           (ImageMarkerPage.markers (App.page (App.run s events)))
         = map Marker.name (ImageMarkerPage.markers (App.page s))
      /\ map Marker.ocrText
           (ImageMarkerPage.markers (App.page (App.run s events)))
         = map Marker.ocrText (ImageMarkerPage.markers (App.page s)))
  /\ (forall s ev,
         commitsMarker ev = false ->
         ImageMarkerPage.markers (App.page (App.step s ev))
         = ImageMarkerPage.markers (App.page s))
  /\ (forall s id e,
         Forall2 (fun before after =>
                    Marker.id before <> id -> after = before)
                 (ImageMarkerPage.markers (App.page s))
                 (ImageMarkerPage.markers
                    (App.page (App.step s (App.MarkerDragEnd id e))))
         /\ Forall2 (fun before after =>
                       Marker.id before <> id -> after = before)
                    (ImageMarkerPage.markers (App.page s))
                    (ImageMarkerPage.markers
                       (App.page
                          (App.step s (App.MarkerTransformEnd id e))))).
Proof.
  split; [|split].
  - induction events as [|ev events IH]; intro s; cbn [App.run fold_left].
    + repeat split; reflexivity.
    + destruct (IH (App.step s ev)) as [H1 [H2 H3]].
      destruct (step_keeps_identity s ev) as [K1 [K2 K3]].
      unfold App.run in *. repeat split; congruence.
  - intros s ev H. unfold App.step.
    destruct (negb (App.rendered s ev)); [reflexivity|].
    pose proof (handle_moves_only_on_commit
                  (ImageMarkerPage.viewerProps (App.page s))
                  (App.viewer s) ev H) as Hc.
    destruct (App.handle _ _ ev) as [v1 calls]. cbn [snd] in Hc.
    cbn [App.page]. apply calls_without_move. exact Hc.
  - intros s id e.
    assert (Hsame : forall ms : list Marker.t,
               Forall2 (fun before after =>
                          Marker.id before <> id -> after = before) ms ms).
    { induction ms; constructor; auto. }
    split; unfold App.step.
    + destruct (negb (App.rendered s (App.MarkerDragEnd id e)));
        [apply Hsame|].
      cbn [App.handle]. unfold handleMarkerDragEnd.
      cbn [ImageMarkerPage.viewerProps onMarkerMove negb].
      cbn [fold_left ImageMarkerPage.receive App.page existsb
             isOnSelectionChange orb].
      apply update_keeps_other_ids.
    + destruct (negb (App.rendered s (App.MarkerTransformEnd id e))) eqn:Hr;
        [apply Hsame|].
      apply negb_false_iff in Hr. cbn in Hr.
      apply andb_true_iff in Hr as [Hi _].
      cbn [App.handle]. unfold handleMarkerTransformEnd, transformerRef.
      rewrite Hi.
      cbn [ImageMarkerPage.viewerProps onMarkerMove negb orb].
      cbn [fold_left ImageMarkerPage.receive App.page existsb
             isOnSelectionChange orb].
      apply update_keeps_other_ids.
Qed.

End MarkerIdentity.

Lemma viewer_events_keep_marker_identity_witness :
  ImageMarkerPage.markers
    (App.page (App.step Scenario.loadedWithMarker
                        (App.MarkerClick "marker-1700000000000")))
  = ImageMarkerPage.markers (App.page Scenario.loadedWithMarker).
Proof.
  apply (proj1 (proj2 viewer_events_keep_marker_identity)). reflexivity.
Defined.

(** ** Resizing through the transformer *)

Section ResizeCommit.

Import Konva.
Import ImageViewer.

(** X6. A resize touches nothing but the geometry of the resized shape.
  The transform end of a rendered marker makes one [onMarkerMove] call for
  that marker and leaves the viewer, the page's selection and the focus as
  they were. The transform end of the visible selection leaves the page's
  selection and the viewer's internal selection equal field for field and
  visible, with no [isNewSelection] flag, so the focus is kept; markers
  and every other cell of the viewer are as before. Without an
  [onSelectionChange] prop the resize of the selection is dropped, while
  its drag end still moves the internal selection. *)
Theorem resize_touches_only_geometry :
  (forall s id e,
      App.rendered s (App.MarkerTransformEnd id e) = true ->
      (exists x y width height,
          App.calls s (App.MarkerTransformEnd id e)
          = [OnMarkerMove id x y width height])
      /\ App.viewer (App.step s (App.MarkerTransformEnd id e))
         = App.viewer s
      /\ ImageMarkerPage.selection
           (App.page (App.step s (App.MarkerTransformEnd id e)))
         = ImageMarkerPage.selection (App.page s)
      /\ ImageMarkerPage.selectedMarkerId
           (App.page (App.step s (App.MarkerTransformEnd id e)))
         = ImageMarkerPage.selectedMarkerId (App.page s))
  /\ (forall s e,
         App.rendered s (App.SelectionTransformEnd e) = true ->
         SelectionChange.selection
           (ImageMarkerPage.selection
              (App.page (App.step s (App.SelectionTransformEnd e))))
         = imageSelection
             (App.viewer (App.step s (App.SelectionTransformEnd e)))
         /\ Selection.visible
              (imageSelection
                 (App.viewer (App.step s (App.SelectionTransformEnd e))))
            = true
         /\ SelectionChange.isNewSelection
              (ImageMarkerPage.selection
                 (App.page (App.step s (App.SelectionTransformEnd e))))
            = None
         /\ ImageMarkerPage.markers
              (App.page (App.step s (App.SelectionTransformEnd e)))
            = ImageMarkerPage.markers (App.page s)
         /\ ImageMarkerPage.selectedMarkerId
              (App.page (App.step s (App.SelectionTransformEnd e)))
            = ImageMarkerPage.selectedMarkerId (App.page s)
         /\ setImageSelection (imageSelection (App.viewer s))
              (App.viewer (App.step s (App.SelectionTransformEnd e)))
            = App.viewer s)
  /\ (forall props st e,
         onSelectionChange props = false ->
         handleSelectionTransformEnd props st e = (st, [])
         /\ snd (handleSelectionDragEnd props st e) = []
         /\ imageSelection (fst (handleSelectionDragEnd props st e))
            = Selection.mk
                ((Rect.x (DragEvent.target e) - Point.x (position st))
                 / scale st)
                ((Rect.y (DragEvent.target e) - Point.y (position st))
                 / scale st)
                (Selection.width (imageSelection st))
                (Selection.height (imageSelection st)) true).
Proof.
  split; [|split].
  - intros s id e Hr.
    assert (Hi : hasImage (App.viewer s) = true).
    { cbn [App.rendered] in Hr. apply andb_true_iff in Hr. tauto. }
    unfold App.calls, App.step. rewrite Hr. cbn [negb App.handle].
    unfold handleMarkerTransformEnd, transformerRef. rewrite Hi.
    cbn [ImageMarkerPage.viewerProps onMarkerMove negb orb snd fold_left
           existsb isOnSelectionChange App.page App.viewer
           ImageMarkerPage.receive].
    split; [do 4 eexists; reflexivity|].
    repeat split; reflexivity.
  - intros s e Hr.
    assert (Hi : hasImage (App.viewer s) = true).
    { cbn [App.rendered] in Hr. apply andb_true_iff in Hr. tauto. }
    unfold App.step. rewrite Hr. cbn [negb App.handle].
    unfold handleSelectionTransformEnd, transformerRef. rewrite Hi.
    cbn [ImageMarkerPage.viewerProps onSelectionChange negb orb fold_left
           existsb isOnSelectionChange ImageMarkerPage.receive].
    unfold ImageMarkerPage.handleSelectionChange, SelectionChange.isNew,
      SelectionChange.of_selection.
    cbn [SelectionChange.visible SelectionChange.isNewSelection andb
           App.page App.viewer].
    unfold syncSelectionProp.
    cbn [ImageMarkerPage.viewerProps ImageMarkerPage.setSelection
           ImageMarkerPage.selection ImageMarkerPage.markers
           ImageMarkerPage.selectedMarkerId selection
           SelectionChange.selection SelectionChange.x SelectionChange.y
           SelectionChange.width SelectionChange.height
           SelectionChange.visible SelectionChange.isNewSelection
           imageSelection setImageSelection Selection.x Selection.y
           Selection.width Selection.height Selection.visible].
    unfold neqb. rewrite !Qeq_bool_refl. cbn [negb orb Bool.eqb fst].
    repeat split; try reflexivity.
    destruct (App.viewer s); reflexivity.
  - intros props st e Hc.
    unfold handleSelectionTransformEnd, handleSelectionDragEnd,
      notifySelectionChange.
    rewrite Hc. repeat split; reflexivity.
Qed.

Lemma resize_touches_only_geometry_witness :
  App.calls Scenario.loadedWithMarker
    (App.MarkerTransformEnd "marker-1700000000000"
       (DragEvent.mk false (Rect.mk 100 100 40 20 2 3)))
  = [OnMarkerMove "marker-1700000000000" 100 100 80 60]
  /\ App.viewer
       (App.step Scenario.loadedWithMarker
          (App.MarkerTransformEnd "marker-1700000000000"
             (DragEvent.mk false (Rect.mk 100 100 40 20 2 3))))
     = App.viewer Scenario.loadedWithMarker
  /\ ImageMarkerPage.selectedMarkerId
       (App.page
          (App.step Scenario.drawn
             (App.SelectionTransformEnd
                (DragEvent.mk false (Rect.mk 10 10 50 30 2 3)))))
     = ImageMarkerPage.selectedMarkerId (App.page Scenario.drawn).
Proof.
  destruct resize_touches_only_geometry as [Hm [Hs _]].
  destruct (Hm Scenario.loadedWithMarker "marker-1700000000000"%string
              (DragEvent.mk false (Rect.mk 100 100 40 20 2 3)) eq_refl)
    as [_ [Hv _]].
  destruct (Hs Scenario.drawn
              (DragEvent.mk false (Rect.mk 10 10 50 30 2 3)) eq_refl)
    as [_ [_ [_ [_ [Hf _]]]]].
  split; [vm_compute; reflexivity|]. split; [exact Hv|exact Hf].
Defined.

End ResizeCommit.

(** ** Gestures and their modifier keys *)

Section Gestures.

Import Konva.
Import ImageViewer.

Lemma setters_same (st : State) :
  setPosition (position st) st = st
  /\ setIsDragging (isDragging st) st = st
  /\ setIsDrawing (isDrawing st) st = st.
Proof. destruct st; repeat split; reflexivity. Qed.

Lemma step_without_calls (s : App.State) (ev : App.Event)
  (v : State) :
  App.rendered s ev = true ->
  App.handle (ImageMarkerPage.viewerProps (App.page s)) (App.viewer s) ev
  = (v, []) ->
  App.step s ev = App.mk (App.page s) v.
Proof.
  intros Hr Hh. unfold App.step. rewrite Hr, Hh. reflexivity.
Qed.

(** X7. Space takes precedence over Alt. With an image loaded, after a
  space key-down, a primary-button press on the background starts a pan
  whether or not Alt is held, and the next move on the background pans:
  the origin moves by the event's movement, and the page, the selection
  and the drawing flag are as before. *)
Theorem space_press_pans_even_with_alt (s : App.State)
  (k : KeyboardEvent.t) (e1 e2 : MouseEvent.t) :
  hasImage (App.viewer s) = true ->
  isSpaceKey k = true ->
  onBackground e1 = true -> MouseEvent.button e1 = 0%Z ->
  onBackground e2 = true ->
  App.page (App.run s [App.KeyDown k; App.MouseDown e1; App.MouseMove e2])
  = App.page s
  /\ App.viewer
       (App.run s [App.KeyDown k; App.MouseDown e1; App.MouseMove e2])
     = setPosition
         (Point.mk
            (Point.x (position (App.viewer s)) + MouseEvent.movementX e2)
            (Point.y (position (App.viewer s)) + MouseEvent.movementY e2))
         (setCursor CursorGrabbing
            (setIsDragging true (setSpacePressed true (App.viewer s)))).
Proof.
  intros Hi Hk Hb1 Hbtn Hb2.
  unfold onBackground in Hb1, Hb2.
  apply andb_true_iff in Hb1 as [Hc1 Hs1].
  apply andb_true_iff in Hb2 as [Hc2 Hs2].
  apply negb_true_iff in Hc1, Hc2.
  destruct (MouseEvent.getStage e1) as [stage1|] eqn:Hst1; [|discriminate].
  destruct (MouseEvent.getStage e2) as [stage2|] eqn:Hst2; [|discriminate].
  destruct s as [p v]. cbn [App.viewer App.page] in *.
  unfold App.run. cbn [fold_left].
  rewrite (step_without_calls _ (App.KeyDown k)
             (setCursor CursorGrab (setSpacePressed true v)));
    [|reflexivity
     |cbn [App.handle App.viewer]; unfold handleKeyDown; rewrite Hk;
      reflexivity].
  rewrite (step_without_calls _ (App.MouseDown e1)
             (setCursor CursorGrabbing
                (setIsDragging true
                   (setCursor CursorGrab (setSpacePressed true v)))));
    [|cbn; unfold hasImage in *; cbn; exact Hi
     |cbn [App.handle App.viewer App.page]; unfold handleMouseDown;
      unfold hasImage in *; cbn [image setCursor setSpacePressed];
      rewrite Hi, Hc1, Hst1, Hbtn; reflexivity].
  rewrite (step_without_calls _ (App.MouseMove e2)
             (setPosition
                (Point.mk (Point.x (position v) + MouseEvent.movementX e2)
                          (Point.y (position v) + MouseEvent.movementY e2))
                (setCursor CursorGrabbing
                   (setIsDragging true (setSpacePressed true v)))));
    [|cbn; unfold hasImage in *; cbn; exact Hi
     |cbn [App.handle App.viewer App.page]; unfold handleMouseMove;
      unfold hasImage in *; cbn [image setCursor setSpacePressed
                                   setIsDragging isDragging position];
      rewrite Hi, Hc2, Hst2; reflexivity].
  split; reflexivity.
Qed.

Lemma space_press_pans_even_with_alt_witness :
  App.page
    (App.run Scenario.loaded
       [App.KeyDown (KeyboardEvent.mk " " "Space");
        App.MouseDown (Scenario.mouseAt 10 10 true);
        App.MouseMove (Scenario.mouseMovedBy 4 9)])
  = App.page Scenario.loaded
  /\ imageSelection
       (App.viewer
          (App.run Scenario.loaded
             [App.KeyDown (KeyboardEvent.mk " " "Space");
              App.MouseDown (Scenario.mouseAt 10 10 true);
              App.MouseMove (Scenario.mouseMovedBy 4 9)]))
     = Selection.mk 0 0 0 0 false
  /\ position
       (App.viewer
          (App.run Scenario.loaded
             [App.KeyDown (KeyboardEvent.mk " " "Space");
              App.MouseDown (Scenario.mouseAt 10 10 true);
              App.MouseMove (Scenario.mouseMovedBy 4 9)]))
     = Point.mk (0 + 4) (0 + 9).
Proof.
  destruct (space_press_pans_even_with_alt Scenario.loaded
              (KeyboardEvent.mk " " "Space") (Scenario.mouseAt 10 10 true)
              (Scenario.mouseMovedBy 4 9)
              eq_refl eq_refl eq_refl eq_refl eq_refl) as [Hp Hv].
  split; [exact Hp|]. rewrite Hv. split; reflexivity.
Defined.

Lemma idle_move_changes_nothing (s : App.State) (e : MouseEvent.t) :
  isDragging (App.viewer s) = false -> isDrawing (App.viewer s) = false ->
  App.step s (App.MouseMove e) = s.
Proof.
  intros Hd Hw. unfold App.step. destruct s as [p v].
  cbn [App.viewer App.page App.rendered App.handle] in *.
  destruct (negb (hasImage v)); [reflexivity|].
  unfold handleMouseMove. rewrite Hd, Hw.
  destruct (MouseEvent.getStage e);
    [destruct (MouseEvent.className e =? "Rect")%string|]; reflexivity.
Qed.

(** X8. Releasing the gating key ends the gesture without a pointer-up.
  A space key-up clears [spacePressed] and [isDragging] and resets the
  cursor, the origin staying where the pan left it; an Alt key-up clears
  [isDrawing], the selection staying as last drawn. In both cases the page
  is untouched, and when no other gesture is going on the next pointer
  move changes nothing. *)
Theorem key_release_ends_gesture (s : App.State) (k : KeyboardEvent.t)
  (e : MouseEvent.t) :
  App.page (App.step s (App.KeyUp k)) = App.page s
  /\ position (App.viewer (App.step s (App.KeyUp k)))
     = position (App.viewer s)
  /\ imageSelection (App.viewer (App.step s (App.KeyUp k)))
     = imageSelection (App.viewer s)
  /\ (isSpaceKey k = true ->
      isDragging (App.viewer (App.step s (App.KeyUp k))) = false
      /\ spacePressed (App.viewer (App.step s (App.KeyUp k))) = false
      /\ cursor (App.viewer (App.step s (App.KeyUp k))) = CursorDefault
      /\ (isDrawing (App.viewer s) = false ->
          App.step (App.step s (App.KeyUp k)) (App.MouseMove e)
          = App.step s (App.KeyUp k)))
  /\ (isAltKey k = true ->
      isDrawing (App.viewer (App.step s (App.KeyUp k))) = false
      /\ (isDragging (App.viewer s) = false ->
          App.step (App.step s (App.KeyUp k)) (App.MouseMove e)
          = App.step s (App.KeyUp k)))
  /\ (isSpaceKey k = false -> isAltKey k = false ->
      App.step s (App.KeyUp k) = s).
Proof.
  assert (Hstep : App.step s (App.KeyUp k)
                  = App.mk (App.page s)
                      (fst (handleKeyUp
                              (ImageMarkerPage.viewerProps (App.page s))
                              (App.viewer s) k))).
  { unfold App.step. reflexivity. }
  rewrite Hstep. cbn [App.page App.viewer].
  unfold handleKeyUp. cbn [fst].
  split; [reflexivity|]. split; [branches; reflexivity|].
  split; [branches; reflexivity|].
  split; [|split].
  - intro Hk. rewrite Hk.
    split; [branches; cbn; congruence|].
    split; [branches; reflexivity|].
    split; [branches; reflexivity|].
    intro Hw. apply idle_move_changes_nothing; cbn [App.viewer];
      rewrite Hw, ?andb_false_r; branches; cbn; congruence.
  - intro Hk. rewrite Hk. cbn [andb].
    split; [branches; cbn; congruence|].
    intro Hd. apply idle_move_changes_nothing; cbn [App.viewer];
      rewrite Hd; branches; cbn; congruence.
  - intros Hs Ha. rewrite Hs, Ha. destruct s; reflexivity.
Qed.

Lemma key_release_ends_gesture_witness :
  isDragging
    (App.viewer
       (App.step
          (App.mk (App.page Scenario.loaded)
                  (setIsDragging true
                     (setSpacePressed true (App.viewer Scenario.loaded))))
          (App.KeyUp (KeyboardEvent.mk " " "Space")))) = false
  /\ isDrawing
       (App.viewer
          (App.step
             (App.run Scenario.loaded
                [App.MouseDown (Scenario.mouseAt 10 10 true)])
             (App.KeyUp (KeyboardEvent.mk "Alt" "AltLeft")))) = false.
Proof.
  split.
  - apply (proj1 (proj2 (proj2 (proj2
             (key_release_ends_gesture
                (App.mk (App.page Scenario.loaded)
                        (setIsDragging true
                           (setSpacePressed true
                              (App.viewer Scenario.loaded))))
                (KeyboardEvent.mk " " "Space")
                (Scenario.mouseAt 0 0 false)))))).
    reflexivity.
  - apply (proj1 (proj2 (proj2 (proj2 (proj2
             (key_release_ends_gesture
                (App.run Scenario.loaded
                   [App.MouseDown (Scenario.mouseAt 10 10 true)])
                (KeyboardEvent.mk "Alt" "AltLeft")
                (Scenario.mouseAt 0 0 false))))))).
    reflexivity.
Defined.

(** X9. A pointer-up over a shape ends nothing: the state is as before,
  and a pan in progress goes on with the next move on the background. A
  pointer-up elsewhere ends the pan (cursor reset) and leaves a drawing
  flag as it is; with no drawing going on the next move changes
  nothing. *)
Theorem release_over_shape_keeps_gesture (s : App.State)
  (e1 e2 : MouseEvent.t) :
  hasImage (App.viewer s) = true ->
  isDragging (App.viewer s) = true ->
  onBackground e2 = true ->
  ((MouseEvent.className e1 =? "Rect")%string = true ->
   App.step s (App.MouseUp e1) = s
   /\ position
        (App.viewer (App.run s [App.MouseUp e1; App.MouseMove e2]))
      = Point.mk
          (Point.x (position (App.viewer s)) + MouseEvent.movementX e2)
          (Point.y (position (App.viewer s)) + MouseEvent.movementY e2))
  /\ ((MouseEvent.className e1 =? "Rect")%string = false ->
      App.viewer (App.step s (App.MouseUp e1))
      = setCursor CursorDefault (setIsDragging false (App.viewer s))
      /\ App.page (App.step s (App.MouseUp e1)) = App.page s
      /\ (isDrawing (App.viewer s) = false ->
          App.run s [App.MouseUp e1; App.MouseMove e2]
          = App.step s (App.MouseUp e1))).
Proof.
  intros Hi Hd Hb.
  unfold onBackground in Hb. apply andb_true_iff in Hb as [Hc2 Hs2].
  apply negb_true_iff in Hc2.
  destruct (MouseEvent.getStage e2) as [stage2|] eqn:Hst2; [|discriminate].
  destruct s as [p v]. cbn [App.viewer App.page] in *.
  split; intro Hc1.
  - assert (Hup : App.step (App.mk p v) (App.MouseUp e1) = App.mk p v).
    { unfold App.step. cbn [App.rendered App.viewer App.handle App.page].
      rewrite Hi. cbn [negb]. unfold handleMouseUp. rewrite Hc1.
      reflexivity. }
    split; [exact Hup|].
    unfold App.run. cbn [fold_left]. rewrite Hup.
    unfold App.step. cbn [App.rendered App.viewer App.handle App.page].
    rewrite Hi. cbn [negb]. unfold handleMouseMove.
    rewrite Hst2, Hc2, Hd, Hi. reflexivity.
  - assert (Hup : App.step (App.mk p v) (App.MouseUp e1)
                  = App.mk p (setCursor CursorDefault
                                (setIsDragging false v))).
    { unfold App.step. cbn [App.rendered App.viewer App.handle App.page].
      rewrite Hi. cbn [negb]. unfold handleMouseUp. rewrite Hc1, Hd.
      reflexivity. }
    rewrite Hup. cbn [App.viewer App.page].
    split; [reflexivity|]. split; [reflexivity|].
    intro Hw. unfold App.run. cbn [fold_left]. rewrite Hup.
    apply idle_move_changes_nothing; cbn [App.viewer]; [reflexivity|].
    exact Hw.
Qed.

Lemma release_over_shape_keeps_gesture_witness :
  App.step
    (App.mk (App.page Scenario.loadedWithMarker)
            (setIsDragging true (App.viewer Scenario.loadedWithMarker)))
    (App.MouseUp (Scenario.mouseOverShape 110 110 false))
  = App.mk (App.page Scenario.loadedWithMarker)
           (setIsDragging true (App.viewer Scenario.loadedWithMarker))
  /\ position
       (App.viewer
          (App.run
             (App.mk (App.page Scenario.loadedWithMarker)
                     (setIsDragging true
                        (App.viewer Scenario.loadedWithMarker)))
             [App.MouseUp (Scenario.mouseOverShape 110 110 false);
              App.MouseMove (Scenario.mouseMovedBy 3 4)]))
     = Point.mk (0 + 3) (0 + 4).
Proof.
  apply (proj1 (release_over_shape_keeps_gesture
                  (App.mk (App.page Scenario.loadedWithMarker)
                          (setIsDragging true
                             (App.viewer Scenario.loadedWithMarker)))
                  (Scenario.mouseOverShape 110 110 false)
                  (Scenario.mouseMovedBy 3 4) eq_refl eq_refl eq_refl)).
  reflexivity.
Defined.

(** X10. Pans add up. While panning, a run of pointer moves on the
  background changes the origin by the sums of their movements and
  changes nothing else of the viewer. *)
Theorem pan_moves_add_up (props : Props)
  (events : list MouseEvent.t) (st : State) :
  isDragging st = true -> hasImage st = true ->
  forallb onBackground events = true ->
  exists origin,
    moves props st events = setPosition origin st
    /\ Point.x origin == Point.x (position st) + totalMovementX events
    /\ Point.y origin == Point.y (position st) + totalMovementY events.
Proof.
  revert st. induction events as [|e events IH]; intros st Hd Hi Hall.
  - exists (position st). cbn. split; [|split; lra].
    symmetry. apply setters_same.
  - cbn in Hall. apply andb_true_iff in Hall as [He Hrest].
    unfold onBackground in He. apply andb_true_iff in He as [Hc Hs].
    apply negb_true_iff in Hc.
    destruct (MouseEvent.getStage e) as [stage|] eqn:Hst; [|discriminate].
    assert (Hm : fst (handleMouseMove props st e)
                 = setPosition
                     (Point.mk (Point.x (position st) + MouseEvent.movementX e)
                               (Point.y (position st) + MouseEvent.movementY e))
                     st).
    { unfold handleMouseMove. rewrite Hst, Hc, Hd, Hi. reflexivity. }
    unfold moves in *. cbn [fold_left]. rewrite Hm.
    destruct (IH (setPosition
                    (Point.mk (Point.x (position st) + MouseEvent.movementX e)
                              (Point.y (position st) + MouseEvent.movementY e))
                    st))
      as [origin [Ho [Hx Hy]]]; [exact Hd | exact Hi | exact Hrest |].
    exists origin. split; [rewrite Ho; reflexivity|].
    cbn [position setPosition Point.x Point.y] in Hx, Hy.
    change (totalMovementX (e :: events))
      with (MouseEvent.movementX e + totalMovementX events).
    change (totalMovementY (e :: events))
      with (MouseEvent.movementY e + totalMovementY events).
    split; [rewrite Hx | rewrite Hy]; lra.
Qed.

Lemma pan_moves_add_up_witness :
  exists origin,
    moves Scenario.plainProps
      (setIsDragging true (Scenario.viewerAt 1 (Point.mk 20 30)))
      [Scenario.mouseMovedBy 5 (-2); Scenario.mouseMovedBy 7 1]
    = setPosition origin
        (setIsDragging true (Scenario.viewerAt 1 (Point.mk 20 30)))
    /\ Point.x origin == 32 /\ Point.y origin == 29.
Proof.
  destruct (pan_moves_add_up Scenario.plainProps
              [Scenario.mouseMovedBy 5 (-2); Scenario.mouseMovedBy 7 1]
              (setIsDragging true (Scenario.viewerAt 1 (Point.mk 20 30)))
              eq_refl eq_refl eq_refl) as [origin [H [Hx Hy]]].
  exists origin. split; [exact H|].
  split; [rewrite Hx | rewrite Hy]; reflexivity.
Defined.

End Gestures.

(** ** Image loading *)

Section Loading.

Import Konva.
Import ImageViewer.

(** X12. Loading an image into a mounted container puts the image's
  centre, at the new scale 1, on the container's centre, and records the
  image and its size. It leaves the selection, the press point and the
  gesture and key flags as they were, and the page untouched; with no
  container mounted the origin stays where it was. *)
Theorem image_load_centres_and_resets (s : App.State) (img : Size.t)
  (container : option Size.t) :
  App.page (App.step s (App.ImageLoad img container)) = App.page s
  /\ scale (App.viewer (App.step s (App.ImageLoad img container))) = 1
  /\ image (App.viewer (App.step s (App.ImageLoad img container)))
     = Some img
  /\ imageSelection (App.viewer (App.step s (App.ImageLoad img container)))
     = imageSelection (App.viewer s)
  /\ isDrawing (App.viewer (App.step s (App.ImageLoad img container)))
     = isDrawing (App.viewer s)
  /\ isDragging (App.viewer (App.step s (App.ImageLoad img container)))
     = isDragging (App.viewer s)
  /\ spacePressed (App.viewer (App.step s (App.ImageLoad img container)))
     = spacePressed (App.viewer s)
  /\ (forall c,
         container = Some c ->
         Rect.x (rectProps
                   (App.viewer (App.step s (App.ImageLoad img container)))
                   (Size.width img / 2) (Size.height img / 2) 0 0)
         == Size.width c / 2
         /\ Rect.y (rectProps
                      (App.viewer
                         (App.step s (App.ImageLoad img container)))
                      (Size.width img / 2) (Size.height img / 2) 0 0)
            == Size.height c / 2)
  /\ (container = None ->
      position (App.viewer (App.step s (App.ImageLoad img container)))
      = position (App.viewer s)).
Proof.
  unfold App.step. cbn [App.rendered negb App.handle].
  unfold handleImageUpload.
  cbn [fold_left existsb App.page App.viewer].
  repeat split; try (destruct container; reflexivity).
  - subst container. unfold rectProps.
    cbn [Rect.x position scale setScale setPosition Point.x]. field.
  - subst container. unfold rectProps.
    cbn [Rect.y position scale setScale setPosition Point.y]. field.
  - intro E. subst container. reflexivity.
Qed.

Lemma image_load_centres_and_resets_witness :
  Rect.x (rectProps
            (App.viewer
               (App.step App.initialState
                  (App.ImageLoad (Size.mk 800 600)
                                 (Some (Size.mk 1000 700)))))
            (800 / 2) (600 / 2) 0 0) == 1000 / 2
  /\ Rect.y (rectProps
               (App.viewer
                  (App.step App.initialState
                     (App.ImageLoad (Size.mk 800 600)
                                    (Some (Size.mk 1000 700)))))
               (800 / 2) (600 / 2) 0 0) == 700 / 2.
Proof.
  destruct (image_load_centres_and_resets App.initialState
              (Size.mk 800 600) (Some (Size.mk 1000 700)))
    as [_ [_ [_ [_ [_ [_ [_ [H _]]]]]]]].
  apply (H (Size.mk 1000 700)). reflexivity.
Defined.

End Loading.

(** ** Resize handles *)

Section Handles.

Import Konva.
Import ImageViewer.

Lemma nonempty_truthy (id : string) :
  id <> ""%string -> truthyId (Some id) = true.
Proof.
  intro H. unfold truthyId. apply negb_true_iff.
  apply String.eqb_neq. exact H.
Qed.

Lemma click_outcome (s : App.State) (id : string) :
  App.rendered s (App.MarkerClick id) = true ->
  imageSelection (App.viewer (App.step s (App.MarkerClick id)))
  = Selection.mk 0 0 0 0 false
  /\ hasImage (App.viewer (App.step s (App.MarkerClick id)))
     = hasImage (App.viewer s)
  /\ ImageMarkerPage.selectedMarkerId
       (App.page (App.step s (App.MarkerClick id)))
     = (if notSelected (ImageMarkerPage.viewerProps (App.page s)) id
        then Some id else None)
  /\ ImageMarkerPage.markers (App.page (App.step s (App.MarkerClick id)))
     = ImageMarkerPage.markers (App.page s).
Proof.
  intro Hr. unfold App.step. rewrite Hr. cbn [negb App.handle].
  unfold handleMarkerClick, notifySelectionChange, notSelected.
  cbn [ImageMarkerPage.viewerProps onSelectionChange onMarkerSelect
         selectedMarkerId].
  destruct (ImageMarkerPage.selectedMarkerId (App.page s)) as [sel|] eqn:Hsel.
  - destruct (sel =? id)%string eqn:E; cbn; repeat split; reflexivity.
  - cbn. repeat split; reflexivity.
Qed.

(** X13. With an image loaded, the transformer effect gives the handles to
  the focused marker when a marker of that id is rendered, whether or not
  the selection is visible; with no focus it gives them to the selection
  exactly when the selection is visible, and to nothing otherwise. A focus
  on an id that no marker has leaves the handles where they were. Running
  the effect twice is running it once. After a click on a rendered marker
  the handles are on that marker, or on nothing when the click took the
  focus off it. *)
Theorem handles_follow_focus_then_selection :
  (forall s nodes id,
      hasImage (App.viewer s) = true ->
      ImageMarkerPage.selectedMarkerId (App.page s) = Some id ->
      id <> ""%string ->
      (App.hasMarker id (ImageMarkerPage.markers (App.page s)) = true ->
       Transformer.bind s nodes = Transformer.MarkerNode id)
      /\ (App.hasMarker id (ImageMarkerPage.markers (App.page s)) = false ->
          Transformer.bind s nodes = nodes))
  /\ (forall s nodes,
         hasImage (App.viewer s) = true ->
         truthyId (ImageMarkerPage.selectedMarkerId (App.page s)) = false ->
         Transformer.bind s nodes
         = if Selection.visible (imageSelection (App.viewer s))
           then Transformer.SelectionNode
           else Transformer.NoNodes)
  /\ (forall s nodes,
         Transformer.bind s (Transformer.bind s nodes)
         = Transformer.bind s nodes)
  /\ (forall s nodes id,
         App.rendered s (App.MarkerClick id) = true ->
         id <> ""%string ->
         Transformer.bind (App.step s (App.MarkerClick id)) nodes
         = if notSelected (ImageMarkerPage.viewerProps (App.page s)) id
           then Transformer.MarkerNode id
           else Transformer.NoNodes).
Proof.
  split; [|split; [|split]].
  - intros s nodes id Hi Hsel Hne.
    unfold Transformer.bind, Transformer.updateTransformer, transformerRef.
    cbn [ImageMarkerPage.viewerProps selectedMarkerId markers].
    rewrite Hi, Hsel, (nonempty_truthy id Hne). cbn [negb].
    split; intro Hm; rewrite Hm; reflexivity.
  - intros s nodes Hi Hf.
    unfold Transformer.bind, Transformer.updateTransformer, transformerRef.
    cbn [ImageMarkerPage.viewerProps selectedMarkerId markers].
    rewrite Hi, Hf. reflexivity.
  - intros s nodes.
    unfold Transformer.bind, Transformer.updateTransformer.
    branches; reflexivity.
  - intros s nodes id Hr Hne.
    pose proof Hr as Hr'. cbn in Hr'.
    apply andb_true_iff in Hr' as [Hi Hm].
    destruct (click_outcome s id Hr) as [Hv [Hi' [Hf Hms]]].
    unfold Transformer.bind, Transformer.updateTransformer, transformerRef.
    cbn [ImageMarkerPage.viewerProps selectedMarkerId markers].
    rewrite Hf, Hms, Hv, Hi', Hi. cbn [negb Selection.visible].
    destruct (notSelected (ImageMarkerPage.viewerProps (App.page s)) id).
    + rewrite (nonempty_truthy id Hne), Hm. reflexivity.
    + reflexivity.
Qed.

End Handles.

Lemma handles_follow_focus_then_selection_witness :
  Transformer.bind
    (App.step Scenario.loadedWithMarker
              (App.MarkerClick "marker-1700000000000"))
    Transformer.NoNodes
  = Transformer.MarkerNode "marker-1700000000000".
Proof.
  apply (proj2 (proj2 (proj2 handles_follow_focus_then_selection))
           Scenario.loadedWithMarker Transformer.NoNodes
           "marker-1700000000000"%string).
  - reflexivity.
  - discriminate.
Defined.

(** ** The form *)

Section Form.

Import ImageViewer.
Import ImageMarkerForm.

Lemma nonempty_length (text : string) :
  text <> ""%string -> (1 <=? String.length text)%nat = true.
Proof. destruct text; [congruence | reflexivity]. Qed.

Lemma sync_copies_visibility (p : ImageMarkerPage.State) (v : State) :
  Selection.visible
    (imageSelection
       (fst (syncSelectionProp (ImageMarkerPage.viewerProps p) v)))
  = SelectionChange.visible (ImageMarkerPage.selection p).
Proof.
  unfold syncSelectionProp.
  cbn [ImageMarkerPage.viewerProps selection SelectionChange.selection
         Selection.x Selection.y Selection.width Selection.height
         Selection.visible].
  destruct (neqb _ _ || neqb _ _ || neqb _ _ || neqb _ _
            || negb (Bool.eqb _ _)) eqn:D.
  - reflexivity.
  - cbn [fst]. apply orb_false_iff in D as [_ D].
    apply negb_false_iff, Bool.eqb_prop in D. symmetry. exact D.
Qed.

Lemma onSubmit_hides_selection (now : Z) (data : FormValues)
  (ps : ImageMarkerPage.State) :
  ImageMarkerPage.selection (onSubmit now data ps)
  = SelectionChange.mk 0 0 0 0 false None.
Proof.
  unfold onSubmit, ImageMarkerPage.handleSelectionChange. reflexivity.
Qed.

(** X14. Saving a new selection. With a visible selection of non-negative
  geometry and no marker focused, the form filled from the selection and
  given a non-empty name passes validation, and its submit appends one
  marker with the typed name, the selection's geometry, the mock OCR text
  and the id made from the clock reading; it focuses that marker and hides
  the selection, with zeroed geometry, in the page and in the viewer. *)
Theorem form_commit_creates_marker (now : Z) (s : App.State)
  (text : string) (values : FormValues) :
  SelectionChange.visible (ImageMarkerPage.selection (App.page s)) = true ->
  truthyId (ImageMarkerPage.selectedMarkerId (App.page s)) = false ->
  text <> ""%string ->
  0 <= SelectionChange.x (ImageMarkerPage.selection (App.page s)) ->
  0 <= SelectionChange.y (ImageMarkerPage.selection (App.page s)) ->
  0 <= SelectionChange.width (ImageMarkerPage.selection (App.page s)) ->
  0 <= SelectionChange.height (ImageMarkerPage.selection (App.page s)) ->
  App.page
    (submit now (typeName text (syncFromSelection (App.page s) values)) s)
  = ImageMarkerPage.mkState
      (ImageMarkerPage.markers (App.page s)
       ++ [Marker.mk
             ("marker-" ++ ImageMarkerPage.numberToString now) text
             (SelectionChange.x (ImageMarkerPage.selection (App.page s)))
             (SelectionChange.y (ImageMarkerPage.selection (App.page s)))
             (SelectionChange.width
                (ImageMarkerPage.selection (App.page s)))
             (SelectionChange.height
                (ImageMarkerPage.selection (App.page s)))
             (Some (mockOcr (ImageMarkerPage.selection (App.page s))))])
      (SelectionChange.mk 0 0 0 0 false None)
      (Some ("marker-" ++ ImageMarkerPage.numberToString now)%string)
  /\ Selection.visible
       (imageSelection
          (App.viewer
             (submit now
                (typeName text (syncFromSelection (App.page s) values)) s)))
     = false.
Proof.
  intros Hv Hf Hne Hx Hy Hw Hh.
  assert (Hvalid : formSchema
                     (typeName text (syncFromSelection (App.page s) values))
                   = true).
  { unfold formSchema, typeName, syncFromSelection. rewrite Hv, Hf.
    cbn [andb negb name selectionX selectionY selectionWidth
           selectionHeight].
    rewrite (nonempty_length text Hne).
    apply Qle_bool_iff in Hx, Hy, Hw, Hh. rewrite Hx, Hy, Hw, Hh.
    reflexivity. }
  unfold submit, hasValidSelection. rewrite Hv, Hvalid.
  cbn [orb andb App.page App.viewer].
  split.
  - unfold handleSubmit, hasValidSelection. rewrite Hv, Hvalid.
    cbn [orb negb]. unfold onSubmit. rewrite Hf, Hv.
    unfold typeName, syncFromSelection. rewrite Hv, Hf. reflexivity.
  - rewrite sync_copies_visibility.
    unfold handleSubmit, hasValidSelection. rewrite Hv, Hvalid.
    cbn [orb negb]. rewrite onSubmit_hides_selection. reflexivity.
Qed.

Lemma form_commit_creates_marker_witness :
  ImageMarkerPage.markers
    (App.page
       (submit 1700000000000
          (typeName "A"
             (syncFromSelection
                (App.page (App.run Scenario.loaded Scenario.drawEvents))
                defaultValues))
          (App.run Scenario.loaded Scenario.drawEvents)))
  = [Marker.mk "marker-1700000000000" "A" 10 10 50 30
       (Some "Sample OCR text from selected area"%string)].
Proof.
  destruct (form_commit_creates_marker 1700000000000
              (App.run Scenario.loaded Scenario.drawEvents) "A"
              defaultValues eq_refl eq_refl) as [H _];
    try discriminate.
  rewrite H. reflexivity.
Defined.

(** X15. What validation keeps out. A submit whose name is empty or whose
  x, y, width or height is negative changes nothing. So a visible
  selection with a negative x or y cannot be saved under any name; and
  drawing from a press point left of the image's origin, at a positive
  scale, gives the page such a selection. *)
Theorem form_rejects_unnamed_or_negative :
  (forall now data ps,
      name data = ""%string \/ selectionX data < 0 \/ selectionY data < 0
      \/ selectionWidth data < 0 \/ selectionHeight data < 0 ->
      handleSubmit now data ps = ps)
  /\ (forall now s text values,
         SelectionChange.visible (ImageMarkerPage.selection (App.page s))
         = true ->
         truthyId (ImageMarkerPage.selectedMarkerId (App.page s)) = false ->
         SelectionChange.x (ImageMarkerPage.selection (App.page s)) < 0
         \/ SelectionChange.y (ImageMarkerPage.selection (App.page s)) < 0 ->
         submit now
           (typeName text (syncFromSelection (App.page s) values)) s = s)
  /\ (forall s e pointerPos,
         hasImage (App.viewer s) = true ->
         spacePressed (App.viewer s) = false ->
         onBackground e = true ->
         Konva.MouseEvent.getStage e
         = Some (Konva.Stage.mk (Some pointerPos)) ->
         Konva.MouseEvent.button e = 0%Z ->
         Konva.MouseEvent.altKey e = true ->
         0 < scale (App.viewer s) ->
         Point.x pointerPos < Point.x (position (App.viewer s)) ->
         SelectionChange.visible
           (ImageMarkerPage.selection
              (App.page (App.step s (App.MouseDown e)))) = true
         /\ truthyId
              (ImageMarkerPage.selectedMarkerId
                 (App.page (App.step s (App.MouseDown e)))) = false
         /\ SelectionChange.x
              (ImageMarkerPage.selection
                 (App.page (App.step s (App.MouseDown e)))) < 0).
Proof.
  assert (Hreject : forall data,
             name data = ""%string \/ selectionX data < 0
             \/ selectionY data < 0 \/ selectionWidth data < 0
             \/ selectionHeight data < 0 ->
             formSchema data = false).
  { intros data H. unfold formSchema.
    destruct H as [H|[H|[H|[H|H]]]].
    - rewrite H. reflexivity.
    - apply ltb_lt in H. unfold ltb in H. apply negb_true_iff in H.
      rewrite H, andb_false_r. reflexivity.
    - apply ltb_lt in H. unfold ltb in H. apply negb_true_iff in H.
      rewrite H, !andb_false_r. reflexivity.
    - apply ltb_lt in H. unfold ltb in H. apply negb_true_iff in H.
      rewrite H, !andb_false_r. reflexivity.
    - apply ltb_lt in H. unfold ltb in H. apply negb_true_iff in H.
      rewrite H, !andb_false_r. reflexivity. }
  split; [|split].
  - intros now data ps H. unfold handleSubmit. rewrite (Hreject data H).
    destruct (negb (hasValidSelection ps)); reflexivity.
  - intros now s text values Hv Hf H. unfold submit.
    rewrite (Hreject (typeName text (syncFromSelection (App.page s) values))).
    + rewrite andb_false_r. reflexivity.
    + unfold typeName, syncFromSelection. rewrite Hv, Hf.
      cbn [andb negb name selectionX selectionY selectionWidth
             selectionHeight].
      destruct H as [H|H]; auto.
  - intros s e pointerPos Hi Hsp Hb Hstage Hbtn Halt Hsc Hleft.
    unfold onBackground in Hb. apply andb_true_iff in Hb as [Hc _].
    apply negb_true_iff in Hc.
    unfold App.step. cbn [App.rendered App.handle]. rewrite Hi. cbn [negb].
    unfold handleMouseDown, notifySelectionChange, stageToImageCoords.
    rewrite Hi, Hc, Hstage, Hsp, Hbtn, Halt.
    cbn [negb andb orb Z.eqb Konva.Stage.getRelativePointerPosition
           ImageMarkerPage.viewerProps onSelectionChange Point.x Point.y
           fold_left ImageMarkerPage.receive App.page].
    unfold ImageMarkerPage.handleSelectionChange.
    cbn [SelectionChange.of_selection SelectionChange.visible
           SelectionChange.isNew SelectionChange.isNewSelection
           Selection.visible andb ImageMarkerPage.selection
           ImageMarkerPage.selectedMarkerId
           ImageMarkerPage.setSelectedMarkerId ImageMarkerPage.setSelection
           SelectionChange.x Selection.x truthyId].
    split; [reflexivity|]. split; [reflexivity|].
    apply Qlt_shift_div_r; [exact Hsc|]. lra.
Qed.

Lemma form_rejects_unnamed_or_negative_witness :
  submit 1700000000000
    (typeName "A"
       (syncFromSelection
          (App.page
             (App.step
                (App.mk (App.page Scenario.loaded)
                        (setPosition (Point.mk 50 0)
                                     (App.viewer Scenario.loaded)))
                (App.MouseDown (Scenario.mouseAt 10 10 true))))
          defaultValues))
    (App.step
       (App.mk (App.page Scenario.loaded)
               (setPosition (Point.mk 50 0) (App.viewer Scenario.loaded)))
       (App.MouseDown (Scenario.mouseAt 10 10 true)))
  = App.step
      (App.mk (App.page Scenario.loaded)
              (setPosition (Point.mk 50 0) (App.viewer Scenario.loaded)))
      (App.MouseDown (Scenario.mouseAt 10 10 true)).
Proof.
  apply (proj1 (proj2 form_rejects_unnamed_or_negative)).
  - reflexivity.
  - reflexivity.
  - left. reflexivity.
Defined.

Lemma find_by_id_id (id : string) (ms : list Marker.t) (m : Marker.t) :
  find (fun m' => (Marker.id m' =? id)%string) ms = Some m ->
  Marker.id m = id.
Proof.
  intro H. apply find_some in H as [_ H]. apply String.eqb_eq. exact H.
Qed.

Lemma find_after_update (id : string) (upd : Marker.t -> Marker.t)
  (ms : list Marker.t) :
  (forall m, Marker.id (upd m) = Marker.id m) ->
  find (fun m => (Marker.id m =? id)%string)
       (map (fun m => if (Marker.id m =? id)%string then upd m else m) ms)
  = option_map upd (find (fun m => (Marker.id m =? id)%string) ms).
Proof.
  intro Hid. induction ms as [|m ms IH]; cbn; [reflexivity|].
  destruct (Marker.id m =? id)%string eqn:E.
  - rewrite Hid, E. reflexivity.
  - rewrite E. exact IH.
Qed.

Lemma selectedMarker_focus (ps : ImageMarkerPage.State) (m : Marker.t) :
  selectedMarker ps = Some m ->
  ImageMarkerPage.selectedMarkerId ps = Some (Marker.id m)
  /\ truthyId (ImageMarkerPage.selectedMarkerId ps) = true
  /\ find (fun m' => (Marker.id m' =? Marker.id m)%string)
          (ImageMarkerPage.markers ps) = Some m.
Proof.
  unfold selectedMarker. intro H.
  destruct (truthyId (ImageMarkerPage.selectedMarkerId ps)) eqn:T;
    [|discriminate].
  destruct (ImageMarkerPage.selectedMarkerId ps) as [id|] eqn:F;
    [|discriminate].
  pose proof (find_by_id_id id _ m H) as E. subst id.
  split; [reflexivity|]. split; [reflexivity | exact H].
Qed.

Lemma form_update_outcome (now : Z) (data : FormValues)
  (s : App.State) (id : string) :
  ImageMarkerPage.selectedMarkerId (App.page s) = Some id ->
  id <> ""%string ->
  formSchema data = true ->
  App.page (submit now data s)
  = ImageMarkerPage.mkState
      (map (fun m =>
              if (Marker.id m =? id)%string
              then Marker.mk (Marker.id m) (name data) (selectionX data)
                             (selectionY data) (selectionWidth data)
                             (selectionHeight data) (ocrTextDisplay data)
              else m)
           (ImageMarkerPage.markers (App.page s)))
      (SelectionChange.mk 0 0 0 0 false None)
      (Some id)
  /\ Selection.visible (imageSelection (App.viewer (submit now data s)))
     = false.
Proof.
  intros Hf Hne Hvalid.
  unfold submit, hasValidSelection. rewrite Hf, Hvalid, orb_true_r.
  cbn [andb App.page App.viewer].
  assert (Hpage : handleSubmit now data (App.page s)
                  = ImageMarkerPage.mkState
                      (map (fun m =>
                              if (Marker.id m =? id)%string
                              then Marker.mk (Marker.id m) (name data)
                                     (selectionX data) (selectionY data)
                                     (selectionWidth data)
                                     (selectionHeight data)
                                     (ocrTextDisplay data)
                              else m)
                           (ImageMarkerPage.markers (App.page s)))
                      (SelectionChange.mk 0 0 0 0 false None)
                      (Some id)).
  { unfold handleSubmit, hasValidSelection. rewrite Hf, Hvalid.
    rewrite orb_true_r. cbn [negb].
    unfold onSubmit. rewrite Hf, (nonempty_truthy id Hne). reflexivity. }
  rewrite Hpage. split; [reflexivity|].
  rewrite sync_copies_visibility. reflexivity.
Qed.

(** X16. Saving an edit. With a marker focused, a valid submit gives every
  marker of the focused id the form's name, geometry and OCR text, keeping
  its id, and leaves the other markers, the order and the number of
  markers as they were; the focus stays and the selection is hidden in the
  page and in the viewer. No marker is added, even when a selection is
  visible beside the focus. *)
Theorem form_update_edits_focused_marker (now : Z) (data : FormValues)
  (s : App.State) (id : string) :
  ImageMarkerPage.selectedMarkerId (App.page s) = Some id ->
  id <> ""%string ->
  formSchema data = true ->
  App.page (submit now data s)
  = ImageMarkerPage.mkState
      (map (fun m =>
              if (Marker.id m =? id)%string
              then Marker.mk (Marker.id m) (name data) (selectionX data)
                             (selectionY data) (selectionWidth data)
                             (selectionHeight data) (ocrTextDisplay data)
              else m)
           (ImageMarkerPage.markers (App.page s)))
      (SelectionChange.mk 0 0 0 0 false None)
      (Some id)
  /\ Selection.visible (imageSelection (App.viewer (submit now data s)))
     = false
  /\ List.length (ImageMarkerPage.markers (App.page (submit now data s)))
     = List.length (ImageMarkerPage.markers (App.page s)).
Proof.
  intros Hf Hne Hvalid.
  destruct (form_update_outcome now data s id Hf Hne Hvalid) as [Hp Hv].
  split; [exact Hp|]. split; [exact Hv|].
  rewrite Hp. cbn [ImageMarkerPage.markers]. apply length_map.
Qed.

Lemma form_update_edits_focused_marker_witness :
  ImageMarkerPage.markers
    (App.page
       (submit 0 (mkValues "B" 1 2 3 4 None)
          (App.step Scenario.loadedWithMarker
                    (App.MarkerClick "marker-1700000000000"))))
  = [Marker.mk "marker-1700000000000" "B" 1 2 3 4 None].
Proof.
  destruct (form_update_edits_focused_marker 0 (mkValues "B" 1 2 3 4 None)
              (App.step Scenario.loadedWithMarker
                        (App.MarkerClick "marker-1700000000000"))
              "marker-1700000000000" eq_refl) as [H _];
    [discriminate | reflexivity |].
  rewrite H. reflexivity.
Defined.

(** X17. Every accepted submit leaves the selection hidden, in the page
  and in the viewer, so the selection is never visible beside a focused
  marker after it, whatever the state before; a submit that is not
  accepted (form not rendered, or values failing validation) changes
  nothing. *)
Theorem submit_hides_selection (now : Z) (data : FormValues)
  (s : App.State) :
  (hasValidSelection (App.page s) = true -> formSchema data = true ->
   App.selectionVisible (submit now data s) = false
   /\ App.bothActive (submit now data s) = false
   /\ ImageMarkerPage.selection (App.page (submit now data s))
      = SelectionChange.mk 0 0 0 0 false None)
  /\ (hasValidSelection (App.page s) = false \/ formSchema data = false ->
      submit now data s = s).
Proof.
  split.
  - intros Hr Hvalid.
    assert (Hsel : ImageMarkerPage.selection
                     (handleSubmit now data (App.page s))
                   = SelectionChange.mk 0 0 0 0 false None).
    { unfold handleSubmit. rewrite Hr, Hvalid. cbn [negb].
      apply onSubmit_hides_selection. }
    unfold submit. rewrite Hr, Hvalid. cbn [andb].
    unfold App.bothActive, App.selectionVisible.
    cbn [App.page App.viewer].
    rewrite sync_copies_visibility, Hsel.
    split; [reflexivity|]. split; reflexivity.
  - intros [H|H]; unfold submit; rewrite H, ?andb_false_r; reflexivity.
Qed.

Lemma submit_hides_selection_witness :
  App.bothActive
    (submit 0 (mkValues "B" 1 2 3 4 None)
       (App.run Scenario.loadedWithMarker
          (Scenario.drawEvents ++ [Scenario.ctrlDragStart]))) = false
  /\ App.bothActive
       (App.run Scenario.loadedWithMarker
          (Scenario.drawEvents ++ [Scenario.ctrlDragStart])) = true.
Proof.
  split; [|reflexivity].
  apply (proj1 (submit_hides_selection 0 (mkValues "B" 1 2 3 4 None)
                  (App.run Scenario.loadedWithMarker
                     (Scenario.drawEvents ++ [Scenario.ctrlDragStart]))));
    reflexivity.
Defined.

(** X18. Load, then save. When the page has a selected marker with a
  non-empty name and non-negative geometry, the form filled from it passes
  validation, and submitting it unedited leaves that marker selected with
  its id, name and geometry unchanged; its OCR text becomes the text the
  form showed, empty when the marker had none. The ids of the collection
  and the focus are unchanged. *)
Theorem form_load_then_save_keeps_marker (now : Z) (s : App.State)
  (m : Marker.t) (values : FormValues) :
  selectedMarker (App.page s) = Some m ->
  Marker.name m <> ""%string ->
  0 <= Marker.x m -> 0 <= Marker.y m ->
  0 <= Marker.width m -> 0 <= Marker.height m ->
  selectedMarker
    (App.page (submit now (syncFromMarker (App.page s) values) s))
  = Some (Marker.mk (Marker.id m) (Marker.name m) (Marker.x m) (Marker.y m)
                    (Marker.width m) (Marker.height m)
                    (Some (match Marker.ocrText m with
                           | Some text => text
                           | None => ""%string
                           end)))
  /\ map Marker.id
       (ImageMarkerPage.markers
          (App.page (submit now (syncFromMarker (App.page s) values) s)))
     = map Marker.id (ImageMarkerPage.markers (App.page s))
  /\ ImageMarkerPage.selectedMarkerId
       (App.page (submit now (syncFromMarker (App.page s) values) s))
     = ImageMarkerPage.selectedMarkerId (App.page s).
Proof.
  intros Hsel Hname Hx Hy Hw Hh.
  destruct (selectedMarker_focus _ _ Hsel) as [Hf [Ht Hfind]].
  assert (Hdata : syncFromMarker (App.page s) values
                  = mkValues (Marker.name m) (Marker.x m) (Marker.y m)
                      (Marker.width m) (Marker.height m)
                      (Some (match Marker.ocrText m with
                             | Some text => text
                             | None => ""%string
                             end))).
  { unfold syncFromMarker. rewrite Hsel. reflexivity. }
  rewrite Hdata.
  assert (Hvalid : formSchema
                     (mkValues (Marker.name m) (Marker.x m) (Marker.y m)
                        (Marker.width m) (Marker.height m)
                        (Some (match Marker.ocrText m with
                               | Some text => text
                               | None => ""%string
                               end))) = true).
  { unfold formSchema.
    cbn [name selectionX selectionY selectionWidth selectionHeight].
    rewrite (nonempty_length _ Hname).
    apply Qle_bool_iff in Hx, Hy, Hw, Hh. rewrite Hx, Hy, Hw, Hh.
    reflexivity. }
  assert (Hne : Marker.id m <> ""%string).
  { intro E. rewrite Hf, E in Ht. discriminate Ht. }
  destruct (form_update_outcome now _ s (Marker.id m) Hf Hne Hvalid)
    as [Hpage _].
  rewrite Hpage. split; [|split].
  - unfold selectedMarker.
    cbn [ImageMarkerPage.selectedMarkerId ImageMarkerPage.markers].
    rewrite (nonempty_truthy _ Hne).
    rewrite (find_after_update (Marker.id m)
               (fun m' =>
                  Marker.mk (Marker.id m') (Marker.name m) (Marker.x m)
                    (Marker.y m) (Marker.width m) (Marker.height m)
                    (Some (match Marker.ocrText m with
                           | Some text => text
                           | None => ""%string
                           end))));
      [|reflexivity].
    rewrite Hfind. reflexivity.
  - cbn [ImageMarkerPage.markers]. rewrite map_map. apply map_ext.
    intro m'. destruct (Marker.id m' =? Marker.id m)%string; reflexivity.
  - cbn [ImageMarkerPage.selectedMarkerId]. symmetry. exact Hf.
Qed.

Lemma form_load_then_save_keeps_marker_witness :
  selectedMarker
    (App.page
       (submit 0
          (syncFromMarker
             (App.page
                (App.step Scenario.loadedWithMarker
                          (App.MarkerClick "marker-1700000000000")))
             defaultValues)
          (App.step Scenario.loadedWithMarker
                    (App.MarkerClick "marker-1700000000000"))))
  = Some (Marker.mk "marker-1700000000000" "A" 100 100 40 20
                    (Some ""%string)).
Proof.
  destruct (form_load_then_save_keeps_marker 0
              (App.step Scenario.loadedWithMarker
                        (App.MarkerClick "marker-1700000000000"))
              (Marker.mk "marker-1700000000000" "A" 100 100 40 20 None)
              defaultValues eq_refl) as [H _];
    try discriminate.
  exact H.
Defined.

(** X19. The three form effects never compete. In every page state at
  most one of them applies, so running them in any of their six orders
  gives the same values: the selection's geometry with an empty name and
  the mock OCR text when a selection is visible and no marker is focused,
  the selected marker's values when there is one, blanks when nothing is
  visible or focused, and the values as they were when the focus is on an
  id no marker has. *)
Theorem form_effects_never_compete (ps : ImageMarkerPage.State)
  (values : FormValues) :
  clearWhenIdle ps (syncFromMarker ps (syncFromSelection ps values))
  = syncFromSelection ps (syncFromMarker ps (clearWhenIdle ps values))
  /\ clearWhenIdle ps (syncFromMarker ps (syncFromSelection ps values))
     = syncFromMarker ps (clearWhenIdle ps (syncFromSelection ps values))
  /\ clearWhenIdle ps (syncFromMarker ps (syncFromSelection ps values))
     = clearWhenIdle ps (syncFromSelection ps (syncFromMarker ps values))
  /\ clearWhenIdle ps (syncFromMarker ps (syncFromSelection ps values))
     = syncFromMarker ps (syncFromSelection ps (clearWhenIdle ps values))
  /\ clearWhenIdle ps (syncFromMarker ps (syncFromSelection ps values))
     = syncFromSelection ps (clearWhenIdle ps (syncFromMarker ps values))
  /\ clearWhenIdle ps (syncFromMarker ps (syncFromSelection ps values))
     = (if truthyId (ImageMarkerPage.selectedMarkerId ps)
        then
          match selectedMarker ps with
          | Some m =>
              mkValues (Marker.name m) (Marker.x m) (Marker.y m)
                       (Marker.width m) (Marker.height m)
                       (Some (match Marker.ocrText m with
                              | Some text => text
                              | None => ""%string
                              end))
          | None => values
          end
        else
        if SelectionChange.visible (ImageMarkerPage.selection ps)
        then
          mkValues ""
            (SelectionChange.x (ImageMarkerPage.selection ps))
            (SelectionChange.y (ImageMarkerPage.selection ps))
            (SelectionChange.width (ImageMarkerPage.selection ps))
            (SelectionChange.height (ImageMarkerPage.selection ps))
            (Some (mockOcr (ImageMarkerPage.selection ps)))
        else defaultValues).
Proof.
  unfold clearWhenIdle, syncFromMarker, syncFromSelection, selectedMarker.
  destruct (truthyId (ImageMarkerPage.selectedMarkerId ps)) eqn:T;
    destruct (SelectionChange.visible (ImageMarkerPage.selection ps));
    cbn [andb negb]; repeat split;
    destruct (ImageMarkerPage.selectedMarkerId ps);
    try destruct (find _ _); reflexivity.
Qed.

End Form.
